(** * Surfline forecast: board scoring, spot lookup and conditions parsing

    A shallow embedding of [surfline_forecast.py] and the properties of its
    three pieces of logic:

    - [BoardQuiver.recommend_board]: the additive scoring rubric and the
      final descending sort;
    - [SurflineAPI.get_spot_info] over the table built by
      [SurflineAPI._load_surf_spots];
    - [SurflineForecast.parse_conditions] over the decoded JSON payloads.

    Numbers.  Python mixes [int] and [float]; every constant of the rubric
    (3, 2, 1, 0.5, 1.5) and every comparison threshold is a dyadic rational,
    and the model computes over exact rationals [Q], compared with [==].
    Rounding, NaN and infinities of IEEE doubles are outside the model. *)

From Stdlib Require Import QArith Qminmax Qabs Lqa String Ascii List.
From Stdlib Require Import Sorting.Sorted Sorting.Permutation.
From stdpp Require Import base gmap strings list.

Set Warnings "-register-all".
Local Open Scope Q_scope.

(** ** Python primitives on numbers and strings *)

(** [x < y] on numbers. *)
Definition Qltb (x y : Q) : bool := negb (Qle_bool y x).

(** The chained comparison [lo <= x <= hi]. *)
Definition between (lo x hi : Q) : bool := Qle_bool lo x && Qle_bool x hi.

(** [max(0, e)]: Python's two-argument [max] keeps its first argument
    unless the second is strictly greater. *)
Definition max0 (e : Q) : Q := if Qltb 0 e then e else 0.

(** [x in [s1, ..., sn]] for strings. *)
Definition str_in (x : string) (l : list string) : bool :=
  existsb (String.eqb x) l.

(** ** Data model *)

(** A board of [my_boards.json].  The fields are those [recommend_board]
    subscripts ([board["type"]], ...); ["construction"] is read with
    [board.get] and may be missing. *)
Module Board.
Record t : Type := mk {
  name : string;
  type : string;
  volume : Q;
  ideal_wave_range : Q * Q;
  ideal_period_range : Q * Q;
  construction : option string
}.
End Board.

(** One entry of [board_constructions.json]: a dictionary from attribute
    names to categorical ratings.  The scoring code only tests attributes
    for equality with string literals. *)
Abbreviation Construction := (gmap string string).

(** The characteristics of a surf spot, each read with [.get]. *)
Module Characteristics.
Record t : Type := mk {
  wave_quality : option string;
  skill_level : option string
}.
End Characteristics.

(** A spot of [surf_spots.json].  [name] and [surfline_id] are
    subscripted by the code; [type] and [characteristics] are optional. *)
Module Spot.
Record t : Type := mk {
  name : string;
  surfline_id : string;
  type : option string;
  characteristics : option Characteristics.t
}.
End Spot.

(** The reasoning strings.  Most are f-strings; an entry keeps the
    template (the constructor) and the interpolated values. *)
Inductive reason : Type :=
  | PerfectWaveSize (wave_height min_wave max_wave : Q)
  | BelowIdealSize (wave_height min_wave : Q)
  | AboveIdealSize (wave_height max_wave : Q)
  | GoodPeriod (period min_period max_period : Q)
  | PeriodOkay (period min_period max_period : Q)
  | CleanConditions
  | SlightlyWindy
  | WindyConditions
  | GreatForBeachBreaks
  | PerformanceIdealForReef
  | GunPerfectForBigReef
  | ForgivingWavesSuit
  | HighPerformanceForQuality
  | ExtraVolumeGood
  | LowerVolumeSuits
  | ExcelsInSmallWaves (construction_type : string)
  | HandlesPowerWell (construction_type : string)
  | GivesExtraPaddlePower (construction_type : string)
  | ProvidesResponsiveFeel (construction_type : string)
  | FishDesignExcels
  | PerformanceGreatForPowerful
  | TwinFinSweetSpot.

(** The literal text of each reasoning string, up to the interpolated
    numbers. *)
Definition reason_text (r : reason) : string :=
  match r with
  | PerfectWaveSize _ _ _ => "Perfect wave size"
  | BelowIdealSize _ _ => "Below ideal size"
  | AboveIdealSize _ _ => "Above ideal size"
  | GoodPeriod _ _ _ => "Good period"
  | PeriodOkay _ _ _ => "Period okay"
  | CleanConditions => "Clean conditions"
  | SlightlyWindy => "Slightly windy"
  | WindyConditions => "Windy conditions"
  | GreatForBeachBreaks => "Great for beach breaks"
  | PerformanceIdealForReef => "Performance board ideal for reef breaks"
  | GunPerfectForBigReef => "Gun perfect for big reef waves"
  | ForgivingWavesSuit => "Forgiving waves suit this board type"
  | HighPerformanceForQuality => "High-performance board for quality waves"
  | ExtraVolumeGood => "Extra volume good for forgiving spots"
  | LowerVolumeSuits => "Lower volume suits advanced breaks"
  | ExcelsInSmallWaves ct => ct ++ " construction excels in small waves"
  | HandlesPowerWell ct => ct ++ " construction handles power well"
  | GivesExtraPaddlePower ct => ct ++ " gives extra paddle power"
  | ProvidesResponsiveFeel ct => ct ++ " provides responsive feel"
  | FishDesignExcels => "Fish design excels in small waves"
  | PerformanceGreatForPowerful => "Performance board great for powerful waves"
  | TwinFinSweetSpot => "Twin fin sweet spot conditions"
  end%string.

(** ** The scoring accumulator

    Inside the loop body [score] and [reasoning] are two local variables
    updated in place; the model threads them as a pair. *)
Definition acc : Type := Q * list reason.

(** [score = 0; reasoning = []] *)
Definition acc0 : acc := (0, []).

(** [score += pts; reasoning.append(why)] *)
Definition award (pts : Q) (why : reason) (a : acc) : acc :=
  (fst a + pts, snd a ++ [why]).

(** [reasoning.append(why)] alone. *)
Definition note (why : reason) (a : acc) : acc :=
  (fst a, snd a ++ [why]).

(** ** The rules of the rubric, in source order *)

(** Wave height scoring. *)
Definition wave_rule (board : Board.t) (wave_height : Q) : acc -> acc :=
  let '(min_wave, max_wave) := Board.ideal_wave_range board in
  if between min_wave wave_height max_wave then
    award 3 (PerfectWaveSize wave_height min_wave max_wave)
  else if Qltb wave_height min_wave then
    award (max0 (2 - (min_wave - wave_height)))
          (BelowIdealSize wave_height min_wave)
  else
    award (max0 (2 - (wave_height - max_wave)))
          (AboveIdealSize wave_height max_wave).

(** Period scoring. *)
Definition period_rule (board : Board.t) (period : Q) : acc -> acc :=
  let '(min_period, max_period) := Board.ideal_period_range board in
  if between min_period period max_period then
    award 2 (GoodPeriod period min_period max_period)
  else
    award (max0 (1 - Qabs (period - (min_period + max_period) / 2) / 5))
          (PeriodOkay period min_period max_period).

(** Wind scoring (lower is better). *)
Definition wind_rule (wind_speed : Q) : acc -> acc :=
  if Qltb wind_speed 10 then award 1 CleanConditions
  else if Qltb wind_speed 15 then award 0.5 SlightlyWindy
  else note WindyConditions.

(** Spot-specific scoring: break type, then wave quality, then skill
    level.  Skipped when [spot_info] is [None] or has no
    ['characteristics']. *)
Definition spot_type_rule (board : Board.t) (wave_height period : Q)
    (spot_type : string) (a : acc) : acc :=
  if String.eqb spot_type "beach_break" then
    if str_in (Board.type board) ["fish/hybrid"; "longboard"]%string
    then award 0.5 GreatForBeachBreaks a else a
  else if str_in spot_type ["reef_break"; "point_break"]%string then
    if String.eqb (Board.type board) "performance_shortboard" && Qltb 12 period
    then award 1 PerformanceIdealForReef a
    else if String.eqb (Board.type board) "gun" && Qltb 6 wave_height
    then award 1.5 GunPerfectForBigReef a
    else a
  else a.

Definition wave_quality_rule (board : Board.t) (wave_quality : string)
    (a : acc) : acc :=
  if String.eqb wave_quality "forgiving"
     && str_in (Board.type board) ["fish/hybrid"; "longboard"]%string
  then award 0.5 ForgivingWavesSuit a
  else if str_in wave_quality ["excellent"; "challenging"]%string
          && String.eqb (Board.type board) "performance_shortboard"
  then award 0.5 HighPerformanceForQuality a
  else a.

Definition skill_level_rule (board : Board.t) (skill_level : string)
    (a : acc) : acc :=
  if String.eqb skill_level "beginner_friendly" && Qltb 35 (Board.volume board)
  then award 0.5 ExtraVolumeGood a
  else if String.eqb skill_level "advanced" && Qltb (Board.volume board) 35
  then award 0.5 LowerVolumeSuits a
  else a.

Definition spot_rule (board : Board.t) (wave_height period : Q)
    (spot_info : option Spot.t) (a : acc) : acc :=
  match spot_info with
  | Some info =>
      match Spot.characteristics info with
      | Some characteristics =>
          let spot_type := default "unknown"%string (Spot.type info) in
          let a := spot_type_rule board wave_height period spot_type a in
          let wave_quality :=
            default "unknown"%string
                    (Characteristics.wave_quality characteristics) in
          let a := wave_quality_rule board wave_quality a in
          let skill_level :=
            default "unknown"%string
                    (Characteristics.skill_level characteristics) in
          skill_level_rule board skill_level a
      | None => a
      end
  | None => a
  end.

(** [construction.get(key) == lit] and [construction.get(key) in lits]. *)
Definition attr_is (construction : Construction) (key lit : string) : bool :=
  match construction !! key with
  | Some v => String.eqb v lit
  | None => false
  end.

Definition attr_in (construction : Construction) (key : string)
    (lits : list string) : bool :=
  match construction !! key with
  | Some v => str_in v lits
  | None => false
  end.

(** Truth value of a dictionary: non-empty. *)
Definition nonempty (construction : Construction) : bool :=
  negb (bool_decide (construction = ∅)).

(** Construction-based bonuses: four independent [if]s under the
    [if construction:] guard. *)
Definition construction_rule (construction : Construction)
    (construction_type : string) (wave_height period : Q) (a : acc) : acc :=
  if nonempty construction then
    let a :=
      if Qltb wave_height 3
         && attr_is construction "small_wave_performance" "excellent"
      then award 1 (ExcelsInSmallWaves construction_type) a else a in
    let a :=
      if Qltb 13 period
         && attr_is construction "powerful_wave_performance" "excellent"
      then award 1 (HandlesPowerWell construction_type) a else a in
    let a :=
      if Qltb wave_height 3 && Qltb period 10
         && attr_in construction "paddle_power" ["high"; "excellent"]%string
      then award 0.5 (GivesExtraPaddlePower construction_type) a else a in
    if Qltb 12 period
       && attr_in construction "flex" ["high"; "medium-high"]%string
    then award 0.5 (ProvidesResponsiveFeel construction_type) a else a
  else a.

(** Board type specific bonuses: one [if]/[elif] chain. *)
Definition board_type_rule (board : Board.t) (wave_height period : Q)
    (a : acc) : acc :=
  if String.eqb (Board.type board) "fish/hybrid" && Qltb wave_height 3
  then award 1 FishDesignExcels a
  else if String.eqb (Board.type board) "performance_shortboard"
          && Qltb 12 period
  then award 1 PerformanceGreatForPowerful a
  else if String.eqb (Board.type board) "twin_fin"
          && between 3 wave_height 5
  then award 0.5 TwinFinSweetSpot a
  else a.

(** ** Resolving a board's construction *)

(** [board.get("construction", "pu")] *)
Definition construction_type_of (board : Board.t) : string :=
  default "pu"%string (Board.construction board).

(** [construction_properties.get(construction_type,
                                 construction_properties.get("pu", {}))] *)
Definition resolve_construction
    (construction_properties : gmap string Construction)
    (construction_type : string) : Construction :=
  default (default ∅ (construction_properties !! "pu"%string))
          (construction_properties !! construction_type).

(** The table [_load_constructions] falls back to when the file is
    missing. *)
Definition default_constructions : gmap string Construction :=
  {[ "pu"%string :=
       list_to_map
         [ ("full_name", "Polyurethane/Polyester");
           ("durability", "medium");
           ("flex", "high");
           ("paddle_power", "medium");
           ("small_wave_performance", "good");
           ("powerful_wave_performance", "excellent");
           ("description",
            "Traditional polyurethane foam with polyester resin.") ]%string ]}.

(** ** One iteration of the loop, and the whole function *)

Module Recommendation.
Record t : Type := mk {
  board : Board.t;
  construction_info : Construction;
  construction_type : string;
  score : Q;
  reasoning : list reason
}.
End Recommendation.

(** The accumulator after all the rules of one iteration. *)
Definition score_acc (construction_properties : gmap string Construction)
    (wave_height period wind_speed : Q) (spot_info : option Spot.t)
    (board : Board.t) : acc :=
  let construction_type := construction_type_of board in
  let construction :=
    resolve_construction construction_properties construction_type in
  let a := acc0 in
  let a := wave_rule board wave_height a in
  let a := period_rule board period a in
  let a := wind_rule wind_speed a in
  let a := spot_rule board wave_height period spot_info a in
  let a := construction_rule construction construction_type
                             wave_height period a in
  board_type_rule board wave_height period a.

(** The dictionary appended to [scores] for one board. *)
Definition score_board (construction_properties : gmap string Construction)
    (wave_height period wind_speed : Q) (spot_info : option Spot.t)
    (board : Board.t) : Recommendation.t :=
  let construction_type := construction_type_of board in
  let a := score_acc construction_properties wave_height period wind_speed
                     spot_info board in
  {| Recommendation.board := board;
     Recommendation.construction_info :=
       resolve_construction construction_properties construction_type;
     Recommendation.construction_type := construction_type;
     Recommendation.score := fst a;
     Recommendation.reasoning := snd a |}.

(** [scores.sort(key=lambda x: x["score"], reverse=True)].  Python's
    [list.sort] is stable, also with [reverse=True]: entries with equal
    keys keep their order.  It is modelled by a stable insertion sort on
    the key, largest first. *)
Section SortByKey.
Context {A : Type} (key : A -> Q).

(** Insert [x], which preceded every element of [l] in the input,
    before the first element whose key does not exceed its own. *)
Fixpoint insert_desc (x : A) (l : list A) : list A :=
  match l with
  | [] => [x]
  | y :: l' =>
      if Qle_bool (key y) (key x) then x :: y :: l'
      else y :: insert_desc x l'
  end.

Fixpoint sort_desc (l : list A) : list A :=
  match l with
  | [] => []
  | x :: l' => insert_desc x (sort_desc l')
  end.
End SortByKey.

(** [BoardQuiver.recommend_board], with [self.construction_properties]
    and [self.boards] as explicit arguments. *)
Definition recommend_board
    (construction_properties : gmap string Construction)
    (boards : list Board.t)
    (wave_height period wind_speed : Q) (spot_info : option Spot.t)
  : list Recommendation.t :=
  let scores :=
    map (score_board construction_properties wave_height period wind_speed
                     spot_info) boards in
  sort_desc Recommendation.score scores.


(** ** Spot lookup *)

(** [str.lower()], on the ASCII letters. *)
Definition lower_ascii (c : ascii) : ascii :=
  let n := nat_of_ascii c in
  if (65 <=? n)%nat && (n <=? 90)%nat then ascii_of_nat (n + 32) else c.

Fixpoint lower (s : string) : string :=
  match s with
  | EmptyString => EmptyString
  | String c s' => String (lower_ascii c) (lower s')
  end.

(** [s.replace(old, new)] for one-character [old] and [new]. *)
Fixpoint replace (old new : ascii) (s : string) : string :=
  match s with
  | EmptyString => EmptyString
  | String c s' =>
      String (if Ascii.eqb c old then new else c) (replace old new s')
  end.

(** [name.lower().replace(" ", "_").replace("-", "_")] *)
Definition normalize (name : string) : string :=
  replace "-" "_" (replace " " "_" (lower name)).

(** [SurflineAPI._load_surf_spots] after the file has been decoded:
    every spot is registered under its normalised name and under its
    lower-cased name, later spots overwriting earlier ones. *)
Definition load_surf_spots (spots_list : list Spot.t) : gmap string Spot.t :=
  foldl (fun spots_dict spot =>
           <[lower (Spot.name spot) := spot]>
             (<[normalize (Spot.name spot) := spot]> spots_dict))
        ∅ spots_list.

(** What [get_spot_info] does: the value returned and the line printed,
    if any. *)
Module Lookup.
Record t : Type := mk {
  returned : option Spot.t;
  printed : option string;
  listed : list string
}.
End Lookup.

Section GetSpotInfo.
(** [list(set(xs))]: the distinct elements of [xs] in an order Python
    does not specify. *)
Variable list_of_set : list string -> list string.

(** [', '.join(names[:10])] inside the not-found message. *)
Definition not_found_message (spot_name : string) (names : list string)
  : string :=
  ("❌ Spot '" ++ spot_name ++ "' not found. Available spots: "
     ++ String.concat ", " names)%string.

(** [SurflineAPI.get_spot_info], with [self.spots] as an argument.  A
    spot dictionary always holds ['name'], so it is true for [or] and
    passes the ['name' in spot] filter. *)
Definition get_spot_info (spots : gmap string Spot.t) (spot_name : string)
  : Lookup.t :=
  let normalized_name := normalize spot_name in
  let spot_info :=
    match spots !! normalized_name with
    | Some info => Some info
    | None => spots !! lower spot_name
    end in
  match spot_info with
  | Some info =>
      {| Lookup.returned := Some info;
         Lookup.printed := None;
         Lookup.listed := [] |}
  | None =>
      let available_spots := map Spot.name (map snd (map_to_list spots)) in
      let unique_spots := list_of_set available_spots in
      {| Lookup.returned := None;
         Lookup.printed :=
           Some (not_found_message spot_name (take 10 unique_spots));
         Lookup.listed := take 10 unique_spots |}
  end.

End GetSpotInfo.

(** ** Decoded JSON payloads and the Python operations on them *)

(** A value as [response.json()] returns it; [JNull] is also Python's
    [None], which the fetchers return on a failed request.  [JObj] lists
    the items of a dictionary, keys distinct. *)
Inductive json : Type :=
  | JNull
  | JBool (b : bool)
  | JNum (q : Q)
  | JStr (s : string)
  | JArr (items : list json)
  | JObj (items : list (string * json)).

(** Dictionary lookup by key. *)
Fixpoint assoc (k : string) (items : list (string * json)) : option json :=
  match items with
  | [] => None
  | (k', v) :: items' => if String.eqb k k' then Some v else assoc k items'
  end.

(** The exceptions the operations below raise. *)
Inductive exn : Type := KeyError | IndexError | TypeError | AttributeError.

(** A computation that returns a value or raises. *)
Definition py (A : Type) : Type := exn + A.

Definition ret {A : Type} (a : A) : py A := inr a.
Definition raise {A : Type} (e : exn) : py A := inl e.
Definition bind {A B : Type} (c : py A) (k : A -> py B) : py B :=
  match c with
  | inl e => inl e
  | inr a => k a
  end.

Notation "x <- c ;; k" := (bind c (fun x => k))
  (at level 100, c at next level, right associativity).

(** [x[k]] for a string key [k]. *)
Definition getitem (x : json) (k : string) : py json :=
  match x with
  | JObj items =>
      match assoc k items with
      | Some v => ret v
      | None => raise KeyError
      end
  | _ => raise TypeError
  end.

(** [x[0]] *)
Definition getitem0 (x : json) : py json :=
  match x with
  | JArr (v :: _) => ret v
  | JArr [] => raise IndexError
  | JStr (String c _) => ret (JStr (String c EmptyString))
  | JStr EmptyString => raise IndexError
  | JObj _ => raise KeyError
  | _ => raise TypeError
  end.

(** [x.get(k, d)]: only dictionaries have the method. *)
Definition get (x : json) (k : string) (d : json) : py json :=
  match x with
  | JObj items => ret (default d (assoc k items))
  | _ => raise AttributeError
  end.

(** The numeric value of a number or a boolean. *)
Definition as_number (x : json) : option Q :=
  match x with
  | JNum q => Some q
  | JBool true => Some 1
  | JBool false => Some 0
  | _ => None
  end.

(** [x + y] *)
Definition add (x y : json) : py json :=
  match as_number x, as_number y with
  | Some p, Some q => ret (JNum (p + q))
  | _, _ =>
      match x, y with
      | JStr s, JStr t => ret (JStr (s ++ t))
      | JArr l, JArr m => ret (JArr (l ++ m))
      | _, _ => raise TypeError
      end
  end.

(** [x / 2] *)
Definition halve (x : json) : py Q :=
  match as_number x with
  | Some q => ret (q / 2)
  | None => raise TypeError
  end.

(** Truth value of [x]. *)
Definition truthy (x : json) : bool :=
  match x with
  | JNull => false
  | JBool b => b
  | JNum q => negb (Qeq_bool q 0)
  | JStr s => negb (String.eqb s "")
  | JArr items => match items with [] => false | _ => true end
  | JObj items => match items with [] => false | _ => true end
  end.

(** [k in x] for a string [k]. *)
Definition contains (k : string) (x : json) : py bool :=
  match x with
  | JObj items => ret (match assoc k items with Some _ => true | None => false end)
  | JArr items =>
      ret (existsb (fun v => match v with
                             | JStr s => String.eqb k s
                             | _ => false
                             end) items)
  | JStr s => ret (match index 0 k s with Some _ => true | None => false end)
  | _ => raise TypeError
  end.

(** ** Conditions parsing *)

Module Conditions.
Record t : Type := mk {
  wave_height : Q;
  period : json;
  wind_speed : json;
  wind_direction : json;
  tide : string;
  timestamp : string
}.
End Conditions.

(** How a call of [parse_conditions] ends: with the dictionary, with
    [None] after a caught exception, or with an exception the [except]
    clause does not list. *)
Inductive outcome : Type :=
  | Returned (conditions : Conditions.t)
  | ReturnedNone
  | Escaped (e : exn).

(** [try: ... except (KeyError, IndexError, TypeError): return None] *)
Definition try_except (body : py Conditions.t) : outcome :=
  match body with
  | inr conditions => Returned conditions
  | inl KeyError | inl IndexError | inl TypeError => ReturnedNone
  | inl AttributeError => Escaped AttributeError
  end.

(** [SurflineForecast.parse_conditions]; [now] stands for
    [datetime.now(timezone.utc).isoformat()]. *)
Definition parse_conditions (now : string)
    (wave_data wind_data tide_data : json) : outcome :=
  try_except (
    data <- getitem wave_data "data" ;;
    wave <- getitem data "wave" ;;
    current_wave <- getitem0 wave ;;
    surf <- getitem current_wave "surf" ;;
    surf_min <- getitem surf "min" ;;
    surf' <- getitem current_wave "surf" ;;
    surf_max <- getitem surf' "max" ;;
    total <- add surf_min surf_max ;;
    wave_height <- halve total ;;
    swells <- get current_wave "swells" (JArr [JObj []]) ;;
    swell <- getitem0 swells ;;
    period <- get swell "period" (JNum 0) ;;
    current_wind <-
      (if truthy wind_data then
         data <- getitem wind_data "data" ;;
         wind <- getitem data "wind" ;;
         getitem0 wind
       else ret (JObj [])) ;;
    wind_speed <- get current_wind "speed" (JNum 0) ;;
    wind_direction <- get current_wind "direction" (JNum 0) ;;
    tide_info <-
      (if truthy tide_data then
         has_data <- contains "data" tide_data ;;
         ret (if has_data : bool then "Available" else "N/A")
       else ret "N/A")%string ;;
    ret {| Conditions.wave_height := wave_height;
           Conditions.period := period;
           Conditions.wind_speed := wind_speed;
           Conditions.wind_direction := wind_direction;
           Conditions.tide := tide_info;
           Conditions.timestamp := now |}).

(** ** Loading the construction table *)

(** [BoardQuiver._load_constructions] after the file system: [file] is
    the decoded content of the constructions file, [None] when opening
    it raises [FileNotFoundError]. *)
Definition load_constructions (file : option (gmap string Construction))
  : gmap string Construction :=
  match file with
  | Some constructions => constructions
  | None => default_constructions
  end.

(** ** One request *)

(** [recommend_board] on the conditions as [run] passes them on.  The
    period and the wind speed arrive as [parse_conditions] read them;
    the loop compares them with numbers ([min_period <= period],
    [wind_speed < 10]), which raises [TypeError] at the first board for
    anything but a number or a boolean.  Without boards nothing is
    compared. *)
Definition recommend_board_on
    (construction_properties : gmap string Construction)
    (boards : list Board.t) (wave_height : Q) (period wind_speed : json)
    (spot_info : option Spot.t) : py (list Recommendation.t) :=
  match boards with
  | [] => ret []
  | _ :: _ =>
      match as_number period, as_number wind_speed with
      | Some period, Some wind_speed =>
          ret (recommend_board construction_properties boards wave_height
                               period wind_speed spot_info)
      | _, _ => raise TypeError
      end
  end.

(** How [SurflineForecast.run] ends: with one of its three messages,
    with the value of [format_output] on the arguments shown, or with
    an exception. *)
Inductive run_result : Type :=
  | RunMessage (text : string)
  | RunReport (spot_name : string) (spot_info : Spot.t)
              (conditions : Conditions.t)
              (recommendations : list Recommendation.t)
  | RunRaised (e : exn).

Section Run.
Variable list_of_set : list string -> list string.

(** [fetch_forecast], [fetch_wind] and [fetch_tides] for a spot id: the
    decoded response, or [JNull] for the [None] of a failed request. *)
Variables fetch_forecast fetch_wind fetch_tides : string -> json.

Variable now : string.

(** [SurflineForecast.run] with [save_json] left at [False];
    [self.api.spots], [self.quiver.construction_properties] and
    [self.quiver.boards] are arguments. *)
Definition run (spots : gmap string Spot.t)
    (construction_properties : gmap string Construction)
    (boards : list Board.t) (spot_name : string) : run_result :=
  match Lookup.returned (get_spot_info list_of_set spots spot_name) with
  | None =>
      RunMessage ("❌ Unknown spot '" ++ spot_name
                    ++ "'. Check available spots with --list-spots")
  | Some spot_info =>
      let spot_id := Spot.surfline_id spot_info in
      let wave_data := fetch_forecast spot_id in
      let wind_data := fetch_wind spot_id in
      let tide_data := fetch_tides spot_id in
      if negb (truthy wave_data) then
        RunMessage "❌ Failed to fetch wave data"
      else
        match parse_conditions now wave_data wind_data tide_data with
        | ReturnedNone => RunMessage "❌ Failed to parse conditions"
        | Escaped e => RunRaised e
        | Returned conditions =>
            match recommend_board_on construction_properties boards
                    (Conditions.wave_height conditions)
                    (Conditions.period conditions)
                    (Conditions.wind_speed conditions)
                    (Some spot_info) with
            | inl e => RunRaised e
            | inr recommendations =>
                RunReport spot_name spot_info conditions recommendations
            end
        end
  end%string.
End Run.

(** * Notions used to state the properties *)

(** A rule never lowers the score and never drops a reasoning string. *)
Definition monotone (rule : acc -> acc) : Prop :=
  forall a, fst a <= fst (rule a) /\
            (length (snd a) <= length (snd (rule a)))%nat.

(** A rule appends exactly one reasoning string. *)
Definition appends_one (rule : acc -> acc) : Prop :=
  forall a, exists why, snd (rule a) = snd a ++ [why].

(** A rule only appends to the reasoning. *)
Definition extends (rule : acc -> acc) : Prop :=
  forall a, exists more, snd (rule a) = snd a ++ more.

Section SortOrder.
Context {A : Type} (key : A -> Q).

(** Largest key first. *)
Definition desc (x y : A) : Prop := key y <= key x.

(** The entries whose key equals [q], in list order. *)
Definition with_key (q : Q) (l : list A) : list A :=
  List.filter (fun a => Qeq_bool (key a) q) l.
End SortOrder.

(** The wind bonus as the rubric words it: 1 below 10, 0.5 from 10 up
    to 15, nothing from 15 on. *)
Definition wind_bonus (wind_speed : Q) : Q :=
  if Qltb wind_speed 10 then 1 else if Qltb wind_speed 15 then 0.5 else 0.

(** Rule 7 of the rubric: the conditions under which a construction
    earns a bonus. *)
Definition triggers_construction_bonus (construction : Construction)
    (wave_height period : Q) : Prop :=
  (construction !! "small_wave_performance"%string = Some "excellent"%string
   /\ wave_height < 3)
  \/ (construction !! "powerful_wave_performance"%string
        = Some "excellent"%string
      /\ 13 < period)
  \/ ((construction !! "paddle_power"%string = Some "high"%string
       \/ construction !! "paddle_power"%string = Some "excellent"%string)
      /\ wave_height < 3 /\ period < 10)
  \/ ((construction !! "flex"%string = Some "high"%string
       \/ construction !! "flex"%string = Some "medium-high"%string)
      /\ 12 < period).

(** Rule 8 of the rubric: the conditions under which the board type
    itself earns a bonus. *)
Definition triggers_board_type_bonus (board : Board.t)
    (wave_height period : Q) : Prop :=
  (Board.type board = "fish/hybrid"%string /\ wave_height < 3)
  \/ (Board.type board = "performance_shortboard"%string /\ 12 < period)
  \/ (Board.type board = "twin_fin"%string
      /\ 3 <= wave_height /\ wave_height <= 5).

(** ** Sample data *)

(** The board of the rubric's worked scenario. *)
Definition daily_driver : Board.t :=
  {| Board.name := "Daily Driver";
     Board.type := "shortboard";
     Board.volume := 28;
     Board.ideal_wave_range := (2, 4);
     Board.ideal_period_range := (10, 14);
     Board.construction := Some "pu"%string |}.

(** A fish whose ranges contain 2 ft at 8 s. *)
Definition small_wave_fish : Board.t :=
  {| Board.name := "Fish";
     Board.type := "fish/hybrid";
     Board.volume := 32;
     Board.ideal_wave_range := (1, 4);
     Board.ideal_period_range := (6, 10);
     Board.construction := Some "pu"%string |}.

(** A board whose construction key is in no table below. *)
Definition carbon_board : Board.t :=
  {| Board.name := "Step-up";
     Board.type := "gun";
     Board.volume := 40;
     Board.ideal_wave_range := (6, 12);
     Board.ideal_period_range := (12, 20);
     Board.construction := Some "carbon"%string |}.

(** A construction file that has no ["pu"] entry. *)
Definition epoxy_only : gmap string Construction :=
  {[ "epoxy"%string :=
       list_to_map
         [ ("flex", "medium");
           ("paddle_power", "high");
           ("small_wave_performance", "excellent");
           ("powerful_wave_performance", "good") ]%string ]}.

(** ** Reading a payload along a path

    The fields the contract of [parse_conditions] names, read without
    exceptions: [None] where the payload has no such field. *)

Definition field (k : string) (x : json) : option json :=
  match x with
  | JObj items => assoc k items
  | _ => None
  end.

Definition first_item (x : json) : option json :=
  match x with
  | JArr (v :: _) => Some v
  | _ => None
  end.

(** The first wave time-step, [data.wave[0]]. *)
Definition first_time_step (wave_data : json) : option json :=
  (field "data" wave_data ≫= field "wave") ≫= first_item.

(** Its reported surf height, [surf.min] or [surf.max], as a number. *)
Definition surf_height (bound : string) (wave_data : json) : option Q :=
  ((first_time_step wave_data ≫= field "surf") ≫= field bound) ≫= as_number.

(** Its first swell entry; a time-step without ["swells"] counts as
    having one empty entry. *)
Definition first_swell (wave_data : json) : option json :=
  first_time_step wave_data ≫= fun step =>
    match field "swells" step with
    | Some swells => first_item swells
    | None => Some (JObj [])
    end.

(** A wave payload with everything the parse reads: numeric surf
    bounds and a first swell entry that is an object. *)
Definition wave_well_formed (wave_data : json) : Prop :=
  exists min_surf max_surf swell,
    surf_height "min" wave_data = Some min_surf
    /\ surf_height "max" wave_data = Some max_surf
    /\ first_swell wave_data = Some (JObj swell).

(** The first wind time-step, [data.wind[0]]. *)
Definition first_wind_step (wind_data : json) : option json :=
  (field "data" wind_data ≫= field "wind") ≫= first_item.

(** The exceptions the [except] clause of [parse_conditions] lists. *)
Definition caught (e : exn) : Prop := e <> AttributeError.

(** A wave payload: 2 to 4 ft, first swell at 12 s. *)
Definition sample_wave : json :=
  JObj [("data",
         JObj [("wave",
                JArr [JObj [("surf", JObj [("min", JNum 2); ("max", JNum 4)]);
                            ("swells",
                             JArr [JObj [("height", JNum 3);
                                         ("period", JNum 12)]])]])])]%string.

(** A wind payload without any time-step. *)
Definition empty_wind : json :=
  JObj [("data", JObj [("wind", JArr [])])]%string.

(** ** Spot names, character by character *)

(** What normalisation does to one character: space and hyphen become
    an underscore, an upper-case letter its lower-case letter. *)
Definition normal_char (c : ascii) : ascii :=
  if Ascii.eqb c " " || Ascii.eqb c "-" then "_"%char else lower_ascii c.

Fixpoint map_chars (f : ascii -> ascii) (s : string) : string :=
  match s with
  | EmptyString => EmptyString
  | String c s' => String (f c) (map_chars f s')
  end.

(** Two spots of the catalog. *)
Definition linda_mar : Spot.t :=
  {| Spot.name := "Linda Mar";
     Spot.surfline_id := "5842041f4e65fad6a7708976";
     Spot.type := Some "beach_break"%string;
     Spot.characteristics :=
       Some {| Characteristics.wave_quality := Some "forgiving"%string;
               Characteristics.skill_level :=
                 Some "beginner_friendly"%string |} |}.

Definition ocean_beach : Spot.t :=
  {| Spot.name := "Ocean Beach-SF";
     Spot.surfline_id := "5842041f4e65fad6a77087f8";
     Spot.type := Some "beach_break"%string;
     Spot.characteristics := None |}.

(** A wave payload whose first swell entry is a number, not an object. *)
Definition numeric_swell_wave : json :=
  JObj [("data",
         JObj [("wave",
                JArr [JObj [("surf", JObj [("min", JNum 2); ("max", JNum 4)]);
                            ("swells", JArr [JNum 12])]])])]%string.

(** * Notions used by the further properties *)

(** What a rule adds to a fresh score. *)
Definition points (rule : acc -> acc) : Q := fst (rule acc0).

(** A board, a construction table and a spot on which every bonus that
    can be combined is earned at 2 ft, 14 s and 5 mph. *)
Definition pro_shortboard : Board.t :=
  {| Board.name := "Pro Model";
     Board.type := "performance_shortboard";
     Board.volume := 26;
     Board.ideal_wave_range := (1, 3);
     Board.ideal_period_range := (12, 16);
     Board.construction := Some "carbon"%string |}.

Definition carbon_table : gmap string Construction :=
  {[ "carbon"%string :=
       list_to_map
         [ ("flex", "high");
           ("paddle_power", "high");
           ("small_wave_performance", "excellent");
           ("powerful_wave_performance", "excellent") ]%string ]}.

Definition reef_spot : Spot.t :=
  {| Spot.name := "Steamer Lane";
     Spot.surfline_id := "5842041f4e65fad6a7708805";
     Spot.type := Some "point_break"%string;
     Spot.characteristics :=
       Some {| Characteristics.wave_quality := Some "excellent"%string;
               Characteristics.skill_level := Some "advanced"%string |} |}.

(** [x[0]] when it does not raise: the first item of a list, the first
    character of a string. *)
Definition item0 (x : json) : option json :=
  match getitem0 x with
  | inr v => Some v
  | inl _ => None
  end.

(** What the parse takes for the first swell entry and for the first
    wind time-step, whatever their type. *)
Definition first_swell_entry (wave_data : json) : option json :=
  match first_time_step wave_data with
  | Some (JObj step) => item0 (default (JArr [JObj []]) (assoc "swells" step))
  | _ => None
  end.

Definition first_wind_entry (wind_data : json) : option json :=
  if truthy wind_data then
    (field "data" wind_data ≫= field "wind") ≫= item0
  else None.

Definition is_object (x : json) : Prop := exists items, x = JObj items.

(** A wind payload with one time-step. *)
Definition sample_wind : json :=
  JObj [("data",
         JObj [("wind",
                JArr [JObj [("speed", JNum 7);
                            ("direction", JNum 270)]])])]%string.

(** * Properties *)

(** ** Comparisons and [max] *)

Lemma Qltb_lt (x y : Q) : Qltb x y = true <-> x < y.
Proof.
  unfold Qltb. rewrite negb_true_iff, <- not_true_iff_false, Qle_bool_iff.
  split; [apply Qnot_le_lt | apply Qlt_not_le].
Qed.

Lemma Qltb_ge (x y : Q) : Qltb x y = false <-> y <= x.
Proof.
  unfold Qltb. rewrite negb_false_iff. apply Qle_bool_iff.
Qed.

Lemma between_true (lo x hi : Q) :
  between lo x hi = true <-> lo <= x /\ x <= hi.
Proof.
  unfold between. rewrite andb_true_iff, !Qle_bool_iff. tauto.
Qed.

Lemma between_false (lo x hi : Q) :
  between lo x hi = false <-> ~ (lo <= x /\ x <= hi).
Proof.
  rewrite <- between_true. destruct (between lo x hi); split; congruence.
Qed.

(** Python's [max(0, e)] is the mathematical maximum. *)
Lemma max0_Qmax (e : Q) : max0 e == Qmax 0 e.
Proof.
  unfold max0. destruct (Qltb 0 e) eqn:E.
  - apply Qltb_lt in E. symmetry. apply Q.max_r. lra.
  - apply Qltb_ge in E. symmetry. apply Q.max_l. exact E.
Qed.

Lemma max0_nonneg (e : Q) : 0 <= max0 e.
Proof.
  unfold max0. destruct (Qltb 0 e) eqn:E; [apply Qltb_lt in E|]; lra.
Qed.

(** Turn the boolean tests of a rule into facts about the numbers. *)
Ltac tests_to_props :=
  repeat match goal with
    | H : Qltb _ _ = true |- _ => apply Qltb_lt in H
    | H : Qltb _ _ = false |- _ => apply Qltb_ge in H
    | H : between _ _ _ = true |- _ => apply between_true in H
    | H : between _ _ _ = false |- _ => apply between_false in H
    | H : _ && _ = true |- _ => apply andb_true_iff in H; destruct H
    end.

(** ** What a rule does to the accumulator *)


Lemma monotone_id : monotone (fun a => a).
Proof. intros a. split; [lra | lia]. Qed.

Lemma monotone_award (pts : Q) (why : reason) :
  0 <= pts -> monotone (award pts why).
Proof.
  intros Hpts a. unfold award. simpl. rewrite length_app. simpl.
  split; [lra | lia].
Qed.

Lemma monotone_note (why : reason) : monotone (note why).
Proof.
  intros a. unfold note. simpl. rewrite length_app. simpl.
  split; [lra | lia].
Qed.

Lemma monotone_compose (f g : acc -> acc) :
  monotone f -> monotone g -> monotone (fun a => g (f a)).
Proof.
  intros Hf Hg a. destruct (Hf a) as [F1 F2], (Hg (f a)) as [G1 G2].
  split; [lra | lia].
Qed.

Lemma appends_one_award (pts : Q) (why : reason) : appends_one (award pts why).
Proof. intros a. exists why. reflexivity. Qed.

Lemma appends_one_note (why : reason) : appends_one (note why).
Proof. intros a. exists why. reflexivity. Qed.

Ltac rubric_award :=
  first [ apply monotone_id
        | apply monotone_note
        | apply monotone_award; first [apply max0_nonneg | lra] ].

Lemma wave_rule_monotone (board : Board.t) (wave_height : Q) :
  monotone (wave_rule board wave_height).
Proof.
  unfold wave_rule. destruct (Board.ideal_wave_range board) as [mn mx].
  destruct (between mn wave_height mx); [rubric_award|].
  destruct (Qltb wave_height mn); rubric_award.
Qed.

Lemma period_rule_monotone (board : Board.t) (period : Q) :
  monotone (period_rule board period).
Proof.
  unfold period_rule. destruct (Board.ideal_period_range board) as [mn mx].
  destruct (between mn period mx); rubric_award.
Qed.

Lemma wind_rule_monotone (wind_speed : Q) : monotone (wind_rule wind_speed).
Proof.
  unfold wind_rule. destruct (Qltb wind_speed 10); [rubric_award|].
  destruct (Qltb wind_speed 15); rubric_award.
Qed.

(** Split a rule on every test it makes, then close each branch. *)
Ltac rule_branches :=
  intros a;
  repeat match goal with
         | |- context [if ?c then _ else _] => destruct c
         end;
  first [ apply (monotone_id a)
        | apply monotone_note
        | apply monotone_award; first [apply max0_nonneg | lra] ].

Lemma spot_type_rule_monotone board wave_height period spot_type :
  monotone (spot_type_rule board wave_height period spot_type).
Proof. unfold spot_type_rule. rule_branches. Qed.

Lemma wave_quality_rule_monotone board wave_quality :
  monotone (wave_quality_rule board wave_quality).
Proof. unfold wave_quality_rule. rule_branches. Qed.

Lemma skill_level_rule_monotone board skill_level :
  monotone (skill_level_rule board skill_level).
Proof. unfold skill_level_rule. rule_branches. Qed.

Lemma spot_rule_monotone board wave_height period spot_info :
  monotone (spot_rule board wave_height period spot_info).
Proof.
  unfold spot_rule. destruct spot_info as [info|]; [|apply monotone_id].
  destruct (Spot.characteristics info) as [ch|]; [|apply monotone_id].
  cbv zeta.
  apply (monotone_compose
           (fun a => wave_quality_rule board _
                       (spot_type_rule board wave_height period _ a))
           (skill_level_rule board _)).
  - apply (monotone_compose (spot_type_rule board wave_height period _)
                            (wave_quality_rule board _)).
    + apply spot_type_rule_monotone.
    + apply wave_quality_rule_monotone.
  - apply skill_level_rule_monotone.
Qed.

Lemma construction_rule_monotone construction construction_type
    wave_height period :
  monotone (construction_rule construction construction_type
                              wave_height period).
Proof.
  intros a. unfold construction_rule. cbv zeta.
  repeat match goal with
         | |- context [if ?c then _ else _] => destruct c
         end;
  unfold award; simpl; rewrite ?length_app; simpl; split; first [lra | lia].
Qed.

Lemma board_type_rule_monotone board wave_height period :
  monotone (board_type_rule board wave_height period).
Proof. unfold board_type_rule. rule_branches. Qed.

(** The accumulator of one board is what the six rules make of
    [acc0], one after the other. *)
Lemma score_acc_unfold construction_properties wave_height period wind_speed
    spot_info board :
  score_acc construction_properties wave_height period wind_speed
            spot_info board
  = board_type_rule board wave_height period
      (construction_rule
         (resolve_construction construction_properties
                               (construction_type_of board))
         (construction_type_of board) wave_height period
         (spot_rule board wave_height period spot_info
            (wind_rule wind_speed
               (period_rule board period
                  (wave_rule board wave_height acc0))))).
Proof. reflexivity. Qed.

Lemma score_acc_monotone construction_properties wave_height period
    wind_speed spot_info board :
  0 <= fst (score_acc construction_properties wave_height period wind_speed
                      spot_info board)
  /\ (3 <= length (snd (score_acc construction_properties wave_height period
                                  wind_speed spot_info board)))%nat.
Proof.
  rewrite score_acc_unfold.
  set (a1 := wave_rule board wave_height acc0).
  set (a2 := period_rule board period a1).
  set (a3 := wind_rule wind_speed a2).
  set (a4 := spot_rule board wave_height period spot_info a3).
  set (a5 := construction_rule _ _ wave_height period a4).
  destruct (wave_rule_monotone board wave_height acc0) as [S1 _].
  destruct (period_rule_monotone board period a1) as [S2 _].
  destruct (wind_rule_monotone wind_speed a2) as [S3 _].
  destruct (spot_rule_monotone board wave_height period spot_info a3)
    as [S4 L4].
  destruct (construction_rule_monotone
              (resolve_construction construction_properties
                                    (construction_type_of board))
              (construction_type_of board) wave_height period a4)
    as [S5 L5].
  destruct (board_type_rule_monotone board wave_height period a5)
    as [S6 L6].
  fold a1 in S1. fold a2 in S2. fold a3 in S3, S4, L4.
  fold a4 in S4, L4, S5, L5. fold a5 in S5, L5, S6, L6.
  assert (L3 : length (snd a3) = 3%nat).
  { subst a3 a2 a1. unfold wind_rule, period_rule, wave_rule.
    destruct (Board.ideal_wave_range board) as [mnw mxw].
    destruct (Board.ideal_period_range board) as [mnp mxp].
    repeat match goal with
           | |- context [if ?c then _ else _] => destruct c
           end; reflexivity. }
  change (fst acc0) with 0 in S1.
  split; [lra | lia].
Qed.

(** ** The sort *)

Section SortByKeyFacts.
Context {A : Type} (key : A -> Q).


Lemma insert_desc_perm (x : A) (l : list A) :
  Permutation (insert_desc key x l) (x :: l).
Proof.
  induction l as [|y l IH]; simpl; [reflexivity|].
  destruct (Qle_bool (key y) (key x)); [reflexivity|].
  rewrite IH. apply perm_swap.
Qed.

Lemma sort_desc_perm (l : list A) : Permutation (sort_desc key l) l.
Proof.
  induction l as [|x l IH]; simpl; [reflexivity|].
  rewrite insert_desc_perm. apply perm_skip, IH.
Qed.

Lemma sort_desc_length (l : list A) : length (sort_desc key l) = length l.
Proof. apply Permutation_length, sort_desc_perm. Qed.

Lemma insert_desc_sorted (x : A) (l : list A) :
  StronglySorted (desc key) l -> StronglySorted (desc key) (insert_desc key x l).
Proof.
  induction l as [|y l IH]; intros Hs; simpl.
  - constructor; constructor.
  - apply StronglySorted_inv in Hs as [Hl Hy].
    destruct (Qle_bool (key y) (key x)) eqn:E.
    + apply Qle_bool_iff in E. constructor.
      * constructor; assumption.
      * constructor; [exact E|].
        eapply Forall_impl; [exact Hy|].
        unfold desc. intros z Hz. lra.
    + constructor; [apply IH, Hl|].
      assert (Hxy : key x <= key y).
      { destruct (Qlt_le_dec (key x) (key y)) as [Hlt|Hle]; [lra|].
        apply Qle_bool_iff in Hle. congruence. }
      eapply Permutation_Forall;
        [symmetry; apply insert_desc_perm|].
      constructor; assumption.
Qed.

Lemma sort_desc_sorted (l : list A) : StronglySorted (desc key) (sort_desc key l).
Proof.
  induction l as [|x l IH]; simpl; [constructor|].
  apply insert_desc_sorted, IH.
Qed.


(** Insertion only moves [x] past entries with a strictly larger key,
    so the entries of any one key keep their order. *)
Lemma insert_desc_stable (q : Q) (x : A) (l : list A) :
  with_key key q (insert_desc key x l) = with_key key q (x :: l).
Proof.
  induction l as [|y l IH]; [reflexivity|]. simpl insert_desc.
  destruct (Qle_bool (key y) (key x)) eqn:E; [reflexivity|].
  assert (Hxy : key x < key y).
  { destruct (Qlt_le_dec (key x) (key y)) as [Hlt|Hle]; [exact Hlt|].
    apply Qle_bool_iff in Hle. congruence. }
  unfold with_key in *. simpl in *. rewrite IH.
  destruct (Qeq_bool (key x) q) eqn:Ex; [|reflexivity].
  destruct (Qeq_bool (key y) q) eqn:Ey; [|reflexivity].
  apply Qeq_bool_iff in Ex, Ey. lra.
Qed.

Lemma sort_desc_stable (q : Q) (l : list A) :
  with_key key q (sort_desc key l) = with_key key q l.
Proof.
  induction l as [|x l IH]; [reflexivity|]. simpl sort_desc.
  rewrite insert_desc_stable. unfold with_key in *. simpl. rewrite IH.
  reflexivity.
Qed.
End SortByKeyFacts.

(** ** The recommendations as a whole *)

Lemma recommend_board_perm construction_properties boards wave_height period
    wind_speed spot_info :
  Permutation
    (recommend_board construction_properties boards wave_height period
                     wind_speed spot_info)
    (map (score_board construction_properties wave_height period wind_speed
                      spot_info) boards).
Proof. apply sort_desc_perm. Qed.

Lemma elem_of_recommend_board construction_properties boards wave_height
    period wind_speed spot_info (r : Recommendation.t) :
  r ∈ recommend_board construction_properties boards wave_height period
                      wind_speed spot_info
  <-> exists board, board ∈ boards
        /\ r = score_board construction_properties wave_height period
                           wind_speed spot_info board.
Proof.
  rewrite recommend_board_perm, list_elem_of_fmap.
  split; intros (b & H1 & H2); exists b; tauto.
Qed.

(** ** Rule by rule *)

Lemma wave_rule_appends_one board wave_height :
  appends_one (wave_rule board wave_height).
Proof.
  unfold wave_rule. destruct (Board.ideal_wave_range board) as [mn mx].
  destruct (between mn wave_height mx); [apply appends_one_award|].
  destruct (Qltb wave_height mn); apply appends_one_award.
Qed.

Lemma period_rule_appends_one board period :
  appends_one (period_rule board period).
Proof.
  unfold period_rule. destruct (Board.ideal_period_range board) as [mn mx].
  destruct (between mn period mx); apply appends_one_award.
Qed.

Lemma wind_rule_appends_one wind_speed : appends_one (wind_rule wind_speed).
Proof.
  unfold wind_rule. destruct (Qltb wind_speed 10); [apply appends_one_award|].
  destruct (Qltb wind_speed 15);
    [apply appends_one_award | apply appends_one_note].
Qed.

Lemma wind_rule_bonus (wind_speed : Q) (a : acc) :
  fst (wind_rule wind_speed a) == fst a + wind_bonus wind_speed.
Proof.
  unfold wind_rule, wind_bonus.
  destruct (Qltb wind_speed 10); [reflexivity|].
  destruct (Qltb wind_speed 15); [reflexivity|]. simpl. lra.
Qed.

(** C4.  Whatever the score so far, the wind rule adds exactly 1 when
    [wind_speed < 10], exactly 0.5 when [10 <= wind_speed < 15] and
    exactly 0 when [wind_speed >= 15] (so 1 at 9, 0.5 at 12 and 0 at 20),
    and in every case it appends one wind reasoning string. *)
Theorem wind_rule_step_function (wind_speed : Q) (a : acc) :
  (wind_speed < 10 -> fst (wind_rule wind_speed a) == fst a + 1)
  /\ (10 <= wind_speed /\ wind_speed < 15 ->
      fst (wind_rule wind_speed a) == fst a + 0.5)
  /\ (15 <= wind_speed -> fst (wind_rule wind_speed a) == fst a + 0)
  /\ fst (wind_rule 9 a) == fst a + 1
  /\ fst (wind_rule 12 a) == fst a + 0.5
  /\ fst (wind_rule 20 a) == fst a + 0
  /\ exists why,
       snd (wind_rule wind_speed a) = snd a ++ [why]
       /\ (why = CleanConditions \/ why = SlightlyWindy
           \/ why = WindyConditions).
Proof.
  repeat split; try (simpl; lra).
  - intros H. unfold wind_rule.
    destruct (Qltb wind_speed 10) eqn:E; [reflexivity|].
    tests_to_props. lra.
  - intros [H1 H2]. unfold wind_rule.
    destruct (Qltb wind_speed 10) eqn:E; tests_to_props; [lra|].
    destruct (Qltb wind_speed 15) eqn:E'; tests_to_props; [reflexivity|lra].
  - intros H. unfold wind_rule.
    destruct (Qltb wind_speed 10) eqn:E; tests_to_props; [lra|].
    destruct (Qltb wind_speed 15) eqn:E'; tests_to_props; [lra|].
    simpl. lra.
  - unfold wind_rule.
    destruct (Qltb wind_speed 10); [eexists; split; [reflexivity|tauto]|].
    destruct (Qltb wind_speed 15); eexists; (split; [reflexivity|tauto]).
Qed.

(** C5.  Whatever the score so far, the wave-height rule adds exactly 3
    when [min_wave <= wave_height <= max_wave]; otherwise it adds
    [max 0 (2 - d)], with [d = min_wave - wave_height] below the range
    and [d = wave_height - max_wave] above it. *)
Theorem wave_rule_contribution (board : Board.t) (wave_height : Q) (a : acc) :
  let min_wave := fst (Board.ideal_wave_range board) in
  let max_wave := snd (Board.ideal_wave_range board) in
  let contribution := fst (wave_rule board wave_height a) - fst a in
  (min_wave <= wave_height /\ wave_height <= max_wave -> contribution == 3)
  /\ (wave_height < min_wave ->
      contribution == Qmax 0 (2 - (min_wave - wave_height)))
  /\ (min_wave <= wave_height -> max_wave < wave_height ->
      contribution == Qmax 0 (2 - (wave_height - max_wave)))
  /\ (min_wave <= max_wave -> max_wave < wave_height ->
      contribution == Qmax 0 (2 - (wave_height - max_wave))).
Proof.
  cbv zeta. unfold wave_rule.
  destruct (Board.ideal_wave_range board) as [mn mx]. simpl fst. simpl snd.
  assert (Hadd : forall pts why, fst (award pts why a) - fst a == pts)
    by (intros; unfold award; simpl; lra).
  destruct (between mn wave_height mx) eqn:B; tests_to_props.
  - rewrite Hadd. repeat split; intros; lra.
  - destruct (Qltb wave_height mn) eqn:L; tests_to_props;
      rewrite Hadd, max0_Qmax; repeat split; intros;
      first [reflexivity | lra | exfalso; apply B; split; lra].
Qed.

(** C6.  Whatever the score so far, the period rule adds exactly 2 when
    [min_period <= period <= max_period], and otherwise exactly
    [max 0 (1 - |period - (min_period + max_period) / 2| / 5)]. *)
Theorem period_rule_contribution (board : Board.t) (period : Q) (a : acc) :
  let min_period := fst (Board.ideal_period_range board) in
  let max_period := snd (Board.ideal_period_range board) in
  let contribution := fst (period_rule board period a) - fst a in
  (min_period <= period /\ period <= max_period -> contribution == 2)
  /\ (~ (min_period <= period /\ period <= max_period) ->
      contribution
      == Qmax 0 (1 - Qabs (period - (min_period + max_period) / 2) / 5)).
Proof.
  cbv zeta. unfold period_rule.
  destruct (Board.ideal_period_range board) as [mn mx]. simpl fst. simpl snd.
  assert (Hadd : forall pts why, fst (award pts why a) - fst a == pts)
    by (intros; unfold award; simpl; lra).
  destruct (between mn period mx) eqn:B; tests_to_props;
    rewrite Hadd; split; intros; first [lra | tauto | apply max0_Qmax].
Qed.

(** The rules after the wind rule only append to the reasoning. *)
Ltac rule_appends :=
  intros a;
  repeat match goal with
         | |- context [if ?c then _ else _] => destruct c
         end;
  unfold award; simpl; rewrite <- ?app_assoc;
  first [ eexists; reflexivity
        | exists []; rewrite app_nil_r; reflexivity ].

Lemma spot_rule_extends board wave_height period spot_info :
  extends (spot_rule board wave_height period spot_info).
Proof.
  unfold spot_rule. destruct spot_info as [info|];
    [|intros a; exists []; rewrite app_nil_r; reflexivity].
  destruct (Spot.characteristics info) as [ch|];
    [|intros a; exists []; rewrite app_nil_r; reflexivity].
  cbv zeta. unfold skill_level_rule, wave_quality_rule, spot_type_rule.
  rule_appends.
Qed.

Lemma construction_rule_extends construction construction_type wave_height
    period :
  extends (construction_rule construction construction_type
                             wave_height period).
Proof. unfold construction_rule. cbv zeta. rule_appends. Qed.

Lemma board_type_rule_extends board wave_height period :
  extends (board_type_rule board wave_height period).
Proof. unfold board_type_rule. rule_appends. Qed.

(** The reasoning of a board starts with the three strings of the wave
    height, period and wind rules. *)
Lemma score_acc_reasoning_prefix construction_properties wave_height period
    wind_speed spot_info board :
  exists wave period_ wind rest,
    snd (wind_rule wind_speed
           (period_rule board period (wave_rule board wave_height acc0)))
    = [wave; period_; wind]
    /\ snd (score_acc construction_properties wave_height period wind_speed
                      spot_info board)
       = [wave; period_; wind] ++ rest.
Proof.
  rewrite score_acc_unfold.
  destruct (wave_rule_appends_one board wave_height acc0) as [w Hw].
  destruct (period_rule_appends_one board period
              (wave_rule board wave_height acc0)) as [p Hp].
  destruct (wind_rule_appends_one wind_speed
              (period_rule board period (wave_rule board wave_height acc0)))
    as [v Hv].
  rewrite Hw in Hp. rewrite Hp in Hv. simpl in Hv.
  set (a3 := wind_rule wind_speed _) in *.
  destruct (spot_rule_extends board wave_height period spot_info a3)
    as [m4 H4].
  set (a4 := spot_rule board wave_height period spot_info a3) in *.
  destruct (construction_rule_extends
              (resolve_construction construction_properties
                                    (construction_type_of board))
              (construction_type_of board) wave_height period a4)
    as [m5 H5].
  set (a5 := construction_rule _ _ wave_height period a4) in *.
  destruct (board_type_rule_extends board wave_height period a5)
    as [m6 H6].
  exists w, p, v, (m4 ++ m5 ++ m6). split; [exact Hv|].
  rewrite H6, H5, H4, Hv. rewrite <- !app_assoc. reflexivity.
Qed.

(** ** Ranking *)

(** C7.  The list [recommend_board] returns is in descending order of
    score: every entry's score is at least that of every later entry.
    Entries of equal score come in the order of their boards in the
    catalog. *)
Theorem recommend_board_sorted_stable construction_properties boards
    wave_height period wind_speed spot_info :
  StronglySorted
    (fun earlier later =>
       Recommendation.score later <= Recommendation.score earlier)
    (recommend_board construction_properties boards wave_height period
                     wind_speed spot_info)
  /\ forall q,
       with_key Recommendation.score q
         (recommend_board construction_properties boards wave_height period
                          wind_speed spot_info)
       = with_key Recommendation.score q
           (map (score_board construction_properties wave_height period
                             wind_speed spot_info) boards).
Proof.
  split.
  - apply (sort_desc_sorted Recommendation.score).
  - intros q. apply sort_desc_stable.
Qed.

(** The order by position: of two entries, the earlier has the higher
    or an equal score. *)
Lemma recommend_board_descending construction_properties boards wave_height
    period wind_speed spot_info (i j : nat) (ri rj : Recommendation.t) :
  (i < j)%nat ->
  recommend_board construction_properties boards wave_height period
                  wind_speed spot_info !! i = Some ri ->
  recommend_board construction_properties boards wave_height period
                  wind_speed spot_info !! j = Some rj ->
  Recommendation.score rj <= Recommendation.score ri.
Proof.
  intros Hij Hi Hj.
  pose proof (sort_desc_sorted Recommendation.score
                (map (score_board construction_properties wave_height period
                                  wind_speed spot_info) boards)) as Hs.
  fold (recommend_board construction_properties boards wave_height period
                        wind_speed spot_info) in Hs.
  revert i j Hij Hi Hj.
  induction Hs as [|r l Hl IH Hr]; intros i j Hij Hi Hj.
  - rewrite lookup_nil in Hi. discriminate.
  - destruct j as [|j]; [lia|]. destruct i as [|i]; simpl in *.
    + injection Hi as <-. rewrite Forall_forall in Hr.
      apply Hr. eapply list_elem_of_lookup_2, Hj.
    + apply (IH i j); [lia|assumption..].
Qed.

(** C8.  Every score [recommend_board] assigns is non-negative, for
    every catalog, construction table, conditions and spot. *)
Theorem recommend_board_scores_nonneg construction_properties boards
    wave_height period wind_speed spot_info :
  Forall (fun r => 0 <= Recommendation.score r)
         (recommend_board construction_properties boards wave_height period
                          wind_speed spot_info).
Proof.
  rewrite recommend_board_perm, Forall_fmap.
  apply Forall_forall. intros board _. simpl.
  apply score_acc_monotone.
Qed.

(** C10.  [recommend_board] returns one recommendation per board: the
    output is as long as the catalog and its boards are the catalog's,
    each as often as there.  Every reasoning list starts with the three
    strings the wave-height, period and wind rules append, so it holds
    at least three. *)
Theorem recommend_board_one_per_board construction_properties boards
    wave_height period wind_speed spot_info :
  let recommendations :=
    recommend_board construction_properties boards wave_height period
                    wind_speed spot_info in
  length recommendations = length boards
  /\ Permutation (map Recommendation.board recommendations) boards
  /\ Forall (fun r =>
               (3 <= length (Recommendation.reasoning r))%nat
               /\ exists wave period_ wind rest,
                    snd (wind_rule wind_speed
                           (period_rule (Recommendation.board r) period
                              (wave_rule (Recommendation.board r)
                                         wave_height acc0)))
                    = [wave; period_; wind]
                    /\ Recommendation.reasoning r
                       = wave :: period_ :: wind :: rest)
            recommendations.
Proof.
  cbv zeta. split; [|split].
  - unfold recommend_board. rewrite sort_desc_length, length_map. reflexivity.
  - rewrite recommend_board_perm, map_map. simpl. rewrite map_id. reflexivity.
  - rewrite recommend_board_perm, Forall_fmap.
    apply Forall_forall. intros board _. simpl.
    destruct (score_acc_reasoning_prefix construction_properties wave_height
                period wind_speed spot_info board)
      as (w & p & v & rest & H3 & Hall).
    split.
    + rewrite Hall. simpl. lia.
    + exists w, p, v, rest. split; assumption.
Qed.

(** ** Construction and board-type bonuses *)

Lemma str_in_pair (x s t : string) :
  str_in x [s; t] = true <-> x = s \/ x = t.
Proof.
  unfold str_in. simpl. rewrite !orb_true_iff, !String.eqb_eq.
  intuition discriminate.
Qed.

Lemma attr_is_true (construction : Construction) (key lit : string) :
  attr_is construction key lit = true <-> construction !! key = Some lit.
Proof.
  unfold attr_is. destruct (construction !! key) as [v|].
  - rewrite String.eqb_eq. split; congruence.
  - split; discriminate.
Qed.

Lemma attr_in_pair (construction : Construction) (key s t : string) :
  attr_in construction key [s; t] = true
  <-> construction !! key = Some s \/ construction !! key = Some t.
Proof.
  unfold attr_in. destruct (construction !! key) as [v|].
  - rewrite str_in_pair. split; intros [H|H]; first [left; congruence | right; congruence].
  - split; [discriminate | intros [H|H]; discriminate].
Qed.

Lemma nonempty_empty : nonempty ∅ = false.
Proof. reflexivity. Qed.

(** With the empty construction the [if construction:] guard fails and
    nothing is added. *)
Lemma construction_rule_empty construction_type wave_height period a :
  construction_rule ∅ construction_type wave_height period a = a.
Proof. unfold construction_rule. rewrite nonempty_empty. reflexivity. Qed.

Lemma construction_rule_no_bonus construction construction_type wave_height
    period a :
  ~ triggers_construction_bonus construction wave_height period ->
  construction_rule construction construction_type wave_height period a = a.
Proof.
  intros Hno. unfold construction_rule.
  destruct (nonempty construction); [|reflexivity]. cbv zeta.
  destruct (Qltb wave_height 3
            && attr_is construction "small_wave_performance" "excellent")
    eqn:T1.
  { exfalso. apply Hno. tests_to_props.
    left. split; [apply attr_is_true|]; assumption. }
  destruct (Qltb 13 period
            && attr_is construction "powerful_wave_performance" "excellent")
    eqn:T2.
  { exfalso. apply Hno. tests_to_props.
    right; left. split; [apply attr_is_true|]; assumption. }
  destruct (Qltb wave_height 3 && Qltb period 10
            && attr_in construction "paddle_power" ["high"; "excellent"])
    eqn:T3.
  { exfalso. apply Hno. tests_to_props.
    right; right; left. split; [apply attr_in_pair|]; auto. }
  destruct (Qltb 12 period
            && attr_in construction "flex" ["high"; "medium-high"]) eqn:T4.
  { exfalso. apply Hno. tests_to_props.
    right; right; right. split; [apply attr_in_pair|]; assumption. }
  reflexivity.
Qed.

Lemma board_type_rule_no_bonus board wave_height period a :
  ~ triggers_board_type_bonus board wave_height period ->
  board_type_rule board wave_height period a = a.
Proof.
  intros Hno. unfold board_type_rule.
  destruct (String.eqb (Board.type board) "fish/hybrid"
            && Qltb wave_height 3) eqn:T1.
  { exfalso. apply Hno. tests_to_props.
    left. split; [apply String.eqb_eq|]; assumption. }
  destruct (String.eqb (Board.type board) "performance_shortboard"
            && Qltb 12 period) eqn:T2.
  { exfalso. apply Hno. tests_to_props.
    right; left. split; [apply String.eqb_eq|]; assumption. }
  destruct (String.eqb (Board.type board) "twin_fin"
            && between 3 wave_height 5) eqn:T3.
  { exfalso. apply Hno. tests_to_props.
    right; right. split; [apply String.eqb_eq; assumption|tauto]. }
  reflexivity.
Qed.

(** The score of a board whose ranges contain the conditions, before
    the bonuses. *)
Lemma in_range_base_score board wave_height period wind_speed :
  fst (Board.ideal_wave_range board) <= wave_height
  /\ wave_height <= snd (Board.ideal_wave_range board) ->
  fst (Board.ideal_period_range board) <= period
  /\ period <= snd (Board.ideal_period_range board) ->
  fst (wind_rule wind_speed
         (period_rule board period (wave_rule board wave_height acc0)))
  == 3 + 2 + wind_bonus wind_speed.
Proof.
  intros Hw Hp. rewrite wind_rule_bonus.
  unfold period_rule, wave_rule.
  destruct (Board.ideal_wave_range board) as [mnw mxw].
  destruct (Board.ideal_period_range board) as [mnp mxp].
  simpl in Hw, Hp.
  apply between_true in Hw, Hp. rewrite Hw, Hp. simpl. lra.
Qed.

(** C1, as amended.  With no spot metadata, a board whose ideal
    wave-height and period ranges contain the query values, whose
    construction triggers none of the construction bonuses and whose
    type triggers none of the board-type bonuses scores exactly
    [3 + 2 + wind_bonus]. *)
Theorem in_range_score_without_bonuses construction_properties boards
    wave_height period wind_speed (r : Recommendation.t) :
  r ∈ recommend_board construction_properties boards wave_height period
                      wind_speed None ->
  fst (Board.ideal_wave_range (Recommendation.board r)) <= wave_height
  /\ wave_height <= snd (Board.ideal_wave_range (Recommendation.board r)) ->
  fst (Board.ideal_period_range (Recommendation.board r)) <= period
  /\ period <= snd (Board.ideal_period_range (Recommendation.board r)) ->
  ~ triggers_construction_bonus (Recommendation.construction_info r)
                                wave_height period ->
  ~ triggers_board_type_bonus (Recommendation.board r) wave_height period ->
  Recommendation.score r == 3 + 2 + wind_bonus wind_speed.
Proof.
  intros Hr. apply elem_of_recommend_board in Hr as (board & _ & ->).
  simpl. intros Hw Hp Hc Ht. rewrite score_acc_unfold.
  unfold spot_rule.
  rewrite construction_rule_no_bonus by exact Hc.
  rewrite board_type_rule_no_bonus by exact Ht.
  apply in_range_base_score; assumption.
Qed.

(** The rubric's worked scenario: ranges [2, 4] ft and [10, 14] s, "pu"
    construction, 3 ft at 12 s with 5 mph wind and no spot: 6 points. *)
Lemma in_range_score_without_bonuses_witness :
  exists r,
    recommend_board default_constructions [daily_driver] 3 12 5 None = [r]
    /\ Recommendation.board r = daily_driver
    /\ Recommendation.score r == 3 + 2 + wind_bonus 5
    /\ Recommendation.score r == 6
    /\ map reason_text (Recommendation.reasoning r)
       = ["Perfect wave size"; "Good period"; "Clean conditions"]%string.
Proof.
  exists (score_board default_constructions 3 12 5 None daily_driver).
  split; [reflexivity|]. split; [reflexivity|].
  assert (H : Recommendation.score
                (score_board default_constructions 3 12 5 None daily_driver)
              == 3 + 2 + wind_bonus 5).
  { apply (in_range_score_without_bonuses default_constructions
             [daily_driver] 3 12 5).
    - apply list_elem_of_singleton. reflexivity.
    - split; vm_compute; discriminate.
    - split; vm_compute; discriminate.
    - intros [[H _]|[[_ H]|[[_ [_ H]]|[_ H]]]]; vm_compute in H;
        discriminate.
    - intros [[H _]|[[H _]|[H _]]]; vm_compute in H; discriminate. }
  split; [exact H|]. split; [rewrite H; vm_compute; reflexivity|].
  vm_compute. reflexivity.
Defined.

(** C1 as stated fails: the construction of this fish triggers no
    construction bonus and both its ranges contain the conditions, yet
    its type earns the small-wave bonus and the score is 7, not 6. *)
Lemma fish_scores_above_base :
  exists r,
    recommend_board default_constructions [small_wave_fish] 2 8 5 None = [r]
    /\ Recommendation.board r = small_wave_fish
    /\ (fst (Board.ideal_wave_range small_wave_fish) <= 2
        /\ 2 <= snd (Board.ideal_wave_range small_wave_fish))
    /\ (fst (Board.ideal_period_range small_wave_fish) <= 8
        /\ 8 <= snd (Board.ideal_period_range small_wave_fish))
    /\ ~ triggers_construction_bonus (Recommendation.construction_info r) 2 8
    /\ Recommendation.score r == 7
    /\ ~ Recommendation.score r == 3 + 2 + wind_bonus 5.
Proof.
  exists (score_board default_constructions 2 8 5 None small_wave_fish).
  split; [reflexivity|]. split; [reflexivity|].
  split; [split; vm_compute; discriminate|].
  split; [split; vm_compute; discriminate|].
  split.
  { intros [[H _]|[[_ H]|[[[H|H] _]|[_ H]]]]; vm_compute in H;
      discriminate. }
  split; [vm_compute; reflexivity|].
  intros H. vm_compute in H. discriminate.
Qed.

(** The rubric's second scenario: the same board at 6 ft, 12 s and
    20 mph scores 0 for the waves, 2 for the period and 0 for the wind. *)
Example daily_driver_overhead_and_windy :
  exists r,
    recommend_board default_constructions [daily_driver] 6 12 20 None = [r]
    /\ Recommendation.score r == 2
    /\ map reason_text (Recommendation.reasoning r)
       = ["Above ideal size"; "Good period"; "Windy conditions"]%string.
Proof.
  exists (score_board default_constructions 6 12 20 None daily_driver).
  split; [reflexivity|]. split; [vm_compute|]; reflexivity.
Qed.

(** ** Which construction a board is scored with *)

Lemma resolve_construction_cases
    (construction_properties : gmap string Construction)
    (construction_type : string) :
  match construction_properties !! construction_type,
        construction_properties !! "pu"%string with
  | Some entry, _ =>
      resolve_construction construction_properties construction_type = entry
  | None, Some pu =>
      resolve_construction construction_properties construction_type = pu
  | None, None =>
      resolve_construction construction_properties construction_type = ∅
  end.
Proof.
  unfold resolve_construction.
  destruct (construction_properties !! construction_type); [reflexivity|].
  destruct (construction_properties !! "pu"%string); reflexivity.
Qed.

(** C2, as amended.  Every board [recommend_board] scores is scored
    with the table entry its construction key names (["pu"] when the
    board names none), or else with the table's ["pu"] entry; when the
    table has neither, the construction is the empty dictionary and the
    construction bonuses are skipped. *)
Theorem scored_construction_resolution construction_properties boards
    wave_height period wind_speed spot_info :
  Forall
    (fun r =>
       let key := default "pu"%string
                          (Board.construction (Recommendation.board r)) in
       Recommendation.construction_type r = key
       /\ match construction_properties !! key,
                construction_properties !! "pu"%string with
          | Some entry, _ => Recommendation.construction_info r = entry
          | None, Some pu => Recommendation.construction_info r = pu
          | None, None =>
              Recommendation.construction_info r = ∅
              /\ forall a,
                   construction_rule (Recommendation.construction_info r)
                                     (Recommendation.construction_type r)
                                     wave_height period a
                   = a
          end)
    (recommend_board construction_properties boards wave_height period
                     wind_speed spot_info).
Proof.
  rewrite recommend_board_perm, Forall_fmap.
  apply Forall_forall. intros board _. simpl.
  split; [reflexivity|].
  pose proof (resolve_construction_cases construction_properties
                (construction_type_of board)) as H.
  fold (construction_type_of board).
  destruct (construction_properties !! construction_type_of board);
    [exact H|].
  destruct (construction_properties !! "pu"%string); [exact H|].
  split; [exact H|]. intros a. rewrite H. apply construction_rule_empty.
Qed.

(** C2 as stated fails: over a table without ["pu"], a board whose key
    the table lacks is scored with the empty dictionary, which is
    neither the entry of its key nor the ["pu"] entry. *)
Lemma unknown_key_without_pu_resolves_empty :
  exists r,
    recommend_board epoxy_only [carbon_board] 7 14 5 None = [r]
    /\ Recommendation.board r = carbon_board
    /\ Recommendation.construction_type r = "carbon"%string
    /\ epoxy_only !! "carbon"%string = None
    /\ epoxy_only !! "pu"%string = None
    /\ Recommendation.construction_info r = ∅
    /\ ~ exists entry,
           (epoxy_only !! Recommendation.construction_type r = Some entry
            \/ epoxy_only !! "pu"%string = Some entry)
           /\ Recommendation.construction_info r = entry.
Proof.
  exists (score_board epoxy_only 7 14 5 None carbon_board).
  repeat (split; [reflexivity|]).
  intros (entry & [H|H] & _); vm_compute in H; discriminate.
Qed.

(** ** Spot lookup *)

Lemma normal_char_passes (c : ascii) :
  (let c1 := lower_ascii c in
   let c2 := if Ascii.eqb c1 " " then "_"%char else c1 in
   if Ascii.eqb c2 "-" then "_"%char else c2)
  = normal_char c.
Proof.
  destruct c as [[] [] [] [] [] [] [] []]; reflexivity.
Qed.

(** The three passes of [normalize] amount to one pass of
    [normal_char]. *)
Lemma normalize_chars (name : string) :
  normalize name = map_chars normal_char name.
Proof.
  unfold normalize. induction name as [|c s IH]; [reflexivity|].
  simpl. rewrite IH. f_equal. apply normal_char_passes.
Qed.

Lemma listed_names_known (list_of_set : list string -> list string)
    (spots : gmap string Spot.t) (n : string) :
  (forall xs x, x ∈ list_of_set xs <-> x ∈ xs) ->
  n ∈ take 10 (list_of_set (map Spot.name (map snd (map_to_list spots)))) ->
  exists key info, spots !! key = Some info /\ Spot.name info = n.
Proof.
  intros Hsame Hn.
  apply elem_of_take in Hn as (i & Hi & _).
  apply list_elem_of_lookup_2 in Hi. apply (proj1 (Hsame _ _)) in Hi.
  apply list_elem_of_fmap in Hi as (info & -> & Hinfo).
  apply list_elem_of_fmap in Hinfo as ([key info'] & -> & Hin).
  apply elem_of_map_to_list in Hin.
  exists key, info'. split; [exact Hin | reflexivity].
Qed.

(** C9.  [get_spot_info] normalises the name (lower case, spaces and
    hyphens to underscores), returns the spot found under the
    normalised key, else the spot found under the lower-cased name; on
    a miss it returns [None] and prints a message listing at most 10
    distinct names of spots in the table.  The function is total: no
    path raises. *)
Theorem get_spot_info_contract (list_of_set : list string -> list string)
    (spots : gmap string Spot.t) (spot_name : string) :
  (forall xs, NoDup (list_of_set xs)) ->
  (forall xs x, x ∈ list_of_set xs <-> x ∈ xs) ->
  let result := get_spot_info list_of_set spots spot_name in
  normalize spot_name = map_chars normal_char spot_name
  /\ match spots !! normalize spot_name, spots !! lower spot_name with
     | Some info, _ | None, Some info =>
         Lookup.returned result = Some info
         /\ Lookup.printed result = None
     | None, None =>
         Lookup.returned result = None
         /\ Lookup.printed result
            = Some (not_found_message spot_name (Lookup.listed result))
         /\ (length (Lookup.listed result) <= 10)%nat
         /\ NoDup (Lookup.listed result)
         /\ forall n, n ∈ Lookup.listed result ->
              exists key info,
                spots !! key = Some info /\ Spot.name info = n
     end.
Proof.
  intros Hnodup Hsame. cbv zeta. split; [apply normalize_chars|].
  unfold get_spot_info.
  destruct (spots !! normalize spot_name) as [info|]; [split; reflexivity|].
  destruct (spots !! lower spot_name) as [info|]; [split; reflexivity|].
  simpl. split; [reflexivity|]. split; [reflexivity|].
  split; [apply firstn_le_length|].
  split.
  - eapply sublist_NoDup; [apply Hnodup | apply sublist_take].
  - intros n Hn. eapply listed_names_known; eassumption.
Qed.

(** The spec's scenario, with [remove_dups] as the enumeration of the
    set: "nowhere_beach" is a miss that lists the two known names, and
    a catalog name in another spelling is found. *)
Lemma get_spot_info_contract_witness :
  let spots := load_surf_spots [linda_mar; ocean_beach] in
  let result := get_spot_info remove_dups spots "nowhere_beach" in
  Lookup.returned result = None
  /\ (length (Lookup.listed result) <= 10)%nat
  /\ NoDup (Lookup.listed result)
  /\ Lookup.returned (get_spot_info remove_dups spots "ocean beach SF")
     = Some ocean_beach.
Proof.
  cbv zeta.
  pose proof (get_spot_info_contract remove_dups
                (load_surf_spots [linda_mar; ocean_beach]) "nowhere_beach"
                NoDup_remove_dups elem_of_remove_dups) as [_ H].
  change (load_surf_spots [linda_mar; ocean_beach]
            !! normalize "nowhere_beach") with (@None Spot.t) in H.
  change (load_surf_spots [linda_mar; ocean_beach]
            !! lower "nowhere_beach") with (@None Spot.t) in H.
  destruct H as (H1 & _ & H3 & H4 & _).
  split; [exact H1|]. split; [exact H3|]. split; [exact H4|].
  reflexivity.
Defined.

(** What [_load_surf_spots] registers: each catalog spot under both of
    its keys, and nothing but catalog spots under their own keys. *)
Lemma load_surf_spots_lookup (spots_list : list Spot.t) (key : string)
    (info : Spot.t) :
  load_surf_spots spots_list !! key = Some info ->
  info ∈ spots_list
  /\ (key = normalize (Spot.name info) \/ key = lower (Spot.name info)).
Proof.
  unfold load_surf_spots.
  assert (G : forall d : gmap string Spot.t,
             foldl (fun spots_dict spot =>
                      <[lower (Spot.name spot) := spot]>
                        (<[normalize (Spot.name spot) := spot]> spots_dict))
                   d spots_list !! key = Some info ->
             d !! key = Some info
             \/ (info ∈ spots_list
                 /\ (key = normalize (Spot.name info)
                     \/ key = lower (Spot.name info)))).
  { induction spots_list as [|s l IH]; intros d H; simpl in H; [by left|].
    apply IH in H as [H|[H1 H2]].
    - destruct (decide (key = lower (Spot.name s))) as [->|Hne].
      + rewrite lookup_insert_eq in H. injection H as <-.
        right. split; [left | by right].
      + rewrite lookup_insert_ne in H by congruence.
        destruct (decide (key = normalize (Spot.name s))) as [->|Hne'].
        * rewrite lookup_insert_eq in H. injection H as <-.
          right. split; [left | by left].
        * rewrite lookup_insert_ne in H by congruence. by left.
    - right. split; [by right | exact H2]. }
  intros H. apply G in H as [H|H]; [|exact H].
  rewrite lookup_empty in H. discriminate.
Qed.

Lemma load_surf_spots_registered (spots_list : list Spot.t) (spot : Spot.t) :
  spot ∈ spots_list ->
  is_Some (load_surf_spots spots_list !! normalize (Spot.name spot))
  /\ is_Some (load_surf_spots spots_list !! lower (Spot.name spot)).
Proof.
  unfold load_surf_spots.
  assert (K : forall (l : list Spot.t) (d : gmap string Spot.t) k,
             is_Some (d !! k) ->
             is_Some (foldl (fun spots_dict spot =>
                        <[lower (Spot.name spot) := spot]>
                          (<[normalize (Spot.name spot) := spot]> spots_dict))
                      d l !! k)).
  { induction l as [|s l IH]; intros d k Hk; simpl; [exact Hk|].
    apply IH. rewrite !lookup_insert_is_Some'. tauto. }
  generalize (∅ : gmap string Spot.t).
  induction spots_list as [|s l IH]; intros d Hin.
  - by apply elem_of_nil in Hin.
  - apply elem_of_cons in Hin as [->|Hin]; [|simpl; apply IH, Hin].
    simpl. split; apply K; rewrite !lookup_insert_is_Some'; auto.
Qed.

(** ** Conditions parsing *)

(** *** The Python operations, inverted *)

Lemma bind_inr {A B : Type} (c : py A) (k : A -> py B) (b : B) :
  bind c k = inr b <-> exists a, c = inr a /\ k a = inr b.
Proof.
  destruct c as [e|a]; simpl.
  - split; [discriminate | intros (a & H & _); discriminate].
  - split; [intros H; exists a; auto | intros (a' & [= ->] & H); exact H].
Qed.

Lemma bind_ret {A B : Type} (a : A) (k : A -> py B) : bind (inr a) k = k a.
Proof. reflexivity. Qed.

Lemma bind_raise {A B : Type} (e : exn) (k : A -> py B) :
  bind (inl e) k = inl e.
Proof. reflexivity. Qed.

Lemma try_except_returned (body : py Conditions.t) (c : Conditions.t) :
  try_except body = Returned c <-> body = inr c.
Proof.
  destruct body as [[]|c']; simpl; split; intros H; try discriminate;
    congruence.
Qed.

Lemma try_except_caught (e : exn) :
  caught e -> try_except (inl e) = ReturnedNone.
Proof. unfold caught. destruct e; simpl; congruence. Qed.

Lemma getitem_inr (x : json) (k : string) (v : json) :
  getitem x k = inr v <-> field k x = Some v.
Proof.
  unfold getitem, ret, raise.
  destruct x; simpl; try (split; discriminate).
  destruct (assoc k items); simpl; split; intros H; try discriminate;
    congruence.
Qed.

Lemma getitem_caught (x : json) (k : string) (e : exn) :
  getitem x k = inl e -> caught e.
Proof.
  unfold caught, getitem, ret, raise. destruct x; simpl; try congruence.
  destruct (assoc k items); simpl; congruence.
Qed.

(** [x[0]] is an object only when [x] is a list that starts with it
    (the first character of a string is a string). *)
Lemma getitem0_obj (x : json) (items : list (string * json)) :
  getitem0 x = inr (JObj items) <-> first_item x = Some (JObj items).
Proof.
  unfold getitem0, ret, raise.
  destruct x as [| | |s|l|]; simpl; try (split; discriminate).
  - destruct s; split; discriminate.
  - destruct l; simpl; split; intros H; try discriminate; congruence.
Qed.

Lemma getitem0_first (x v : json) :
  first_item x = Some v -> getitem0 x = inr v.
Proof.
  unfold getitem0, ret, raise.
  destruct x as [| | | |l|]; simpl; try discriminate.
  destruct l; simpl; congruence.
Qed.

Lemma getitem0_caught (x : json) (e : exn) : getitem0 x = inl e -> caught e.
Proof.
  unfold caught, getitem0, ret, raise.
  destruct x as [| | |s|l|]; simpl; try congruence.
  - destruct s; congruence.
  - destruct l; congruence.
Qed.

Lemma get_inr (x : json) (k : string) (d v : json) :
  get x k d = inr v
  <-> exists items, x = JObj items /\ v = default d (assoc k items).
Proof.
  unfold get, ret, raise. destruct x; simpl;
    try (split; [discriminate | intros (? & ? & _); discriminate]).
  split.
  - intros [= <-]. eauto.
  - intros (items' & [= <-] & ->). reflexivity.
Qed.

Lemma add_numbers (x y : json) (p r : Q) :
  as_number x = Some p -> as_number y = Some r ->
  add x y = inr (JNum (p + r)).
Proof. intros Hx Hy. unfold add. rewrite Hx, Hy. reflexivity. Qed.

(** [(x + y) / 2] succeeds only on two numbers. *)
Lemma add_halve (x y t : json) (q : Q) :
  add x y = inr t -> halve t = inr q ->
  exists p r, as_number x = Some p /\ as_number y = Some r /\ q = (p + r) / 2.
Proof.
  unfold add, halve, ret, raise. destruct (as_number x) as [p|] eqn:Hx.
  - destruct (as_number y) as [r|] eqn:Hy.
    + intros [= <-] [= <-]. eauto.
    + destruct x; try discriminate; destruct y; try discriminate.
  - destruct x; try discriminate; destruct y; try discriminate;
      intros [= <-]; discriminate.
Qed.

Lemma add_caught (x y : json) (e : exn) : add x y = inl e -> caught e.
Proof.
  unfold caught, add, ret, raise.
  destruct (as_number x), (as_number y); destruct x, y; simpl; congruence.
Qed.

Lemma halve_caught (x : json) (e : exn) : halve x = inl e -> caught e.
Proof.
  unfold caught, halve, ret, raise. destruct (as_number x); simpl; congruence.
Qed.

(** Split a successful run into its steps. *)
Ltac invert_binds H :=
  repeat (apply bind_inr in H;
          let a := fresh "v" in
          let E := fresh "E" in
          destruct H as (a & E & H); cbv beta in H).

(** *** What the steps on the wave payload establish *)

Lemma surf_steps_read (wave_data data wave current_wave surf surf' : json)
    (surf_min surf_max total : json) (wave_height : Q) :
  getitem wave_data "data" = inr data ->
  getitem data "wave" = inr wave ->
  getitem0 wave = inr current_wave ->
  getitem current_wave "surf" = inr surf ->
  getitem surf "min" = inr surf_min ->
  getitem current_wave "surf" = inr surf' ->
  getitem surf' "max" = inr surf_max ->
  add surf_min surf_max = inr total ->
  halve total = inr wave_height ->
  exists step min_surf max_surf,
    current_wave = JObj step
    /\ first_time_step wave_data = Some (JObj step)
    /\ surf_height "min" wave_data = Some min_surf
    /\ surf_height "max" wave_data = Some max_surf
    /\ wave_height = (min_surf + max_surf) / 2.
Proof.
  intros H1 H2 H3 H4 H5 H6 H7 H8 H9.
  apply getitem_inr in H1, H2, H5, H7.
  destruct current_wave as [| | | | |step]; try discriminate.
  apply getitem0_obj in H3. apply getitem_inr in H4, H6.
  assert (surf' = surf) as -> by congruence.
  destruct (add_halve _ _ _ _ H8 H9) as (p & r & Hp & Hr & ->).
  assert (Hstep : first_time_step wave_data = Some (JObj step)).
  { unfold first_time_step. rewrite H1. simpl. rewrite H2. exact H3. }
  exists step, p, r. split; [reflexivity|]. split; [exact Hstep|].
  unfold surf_height. rewrite Hstep. simpl.
  change (assoc "surf" step) with (field "surf" (JObj step)).
  rewrite H4. simpl. rewrite H5, H7. simpl. auto.
Qed.

(** *** What a returned record holds *)

Lemma parse_conditions_returned (now : string)
    (wave_data wind_data tide_data : json) (c : Conditions.t) :
  parse_conditions now wave_data wind_data tide_data = Returned c ->
  (exists min_surf max_surf,
      surf_height "min" wave_data = Some min_surf
      /\ surf_height "max" wave_data = Some max_surf
      /\ Conditions.wave_height c = (min_surf + max_surf) / 2)
  /\ (exists swell,
         first_swell wave_data = Some (JObj swell)
         /\ Conditions.period c = default (JNum 0) (assoc "period" swell))
  /\ (truthy wind_data = false ->
      Conditions.wind_speed c = JNum 0
      /\ Conditions.wind_direction c = JNum 0)
  /\ (Conditions.tide c = "Available"%string
      \/ Conditions.tide c = "N/A"%string).
Proof.
  unfold parse_conditions. intros H. apply try_except_returned in H.
  invert_binds H. injection H as <-. simpl.
  destruct (surf_steps_read _ _ _ _ _ _ _ _ _ _ E E0 E1 E2 E3 E4 E5 E6 E7)
    as (step & mn & mx & -> & Hstep & Hmin & Hmax & ->).
  split; [eauto|]. split; [|split].
  - apply get_inr in E8 as (step' & [= <-] & ->).
    apply get_inr in E10 as (swell & -> & ->).
    apply getitem0_obj in E9.
    exists swell. split; [|reflexivity].
    unfold first_swell. rewrite Hstep. simpl.
    destruct (assoc "swells" step); exact E9.
  - intros Hw. rewrite Hw in E11. injection E11 as <-.
    apply get_inr in E12 as (? & [= <-] & ->).
    apply get_inr in E13 as (? & [= <-] & ->).
    split; reflexivity.
  - destruct (truthy tide_data).
    + destruct (contains "data" tide_data) as [e|[]]; simpl in E14;
        try discriminate; injection E14 as <-; auto.
    + injection E14 as <-. right; reflexivity.
Qed.

(** *** When the surf height cannot be read *)

(** Run the next step of the body: it raises a caught exception, or
    hands its value on. *)
Ltac run_step lem E :=
  match goal with
  | |- try_except (bind ?c _) = ReturnedNone =>
      destruct c as [?|?] eqn:E;
      [ rewrite bind_raise; apply try_except_caught; apply lem in E; exact E
      | rewrite bind_ret; cbv beta ]
  end.

Lemma parse_conditions_no_surf (now : string)
    (wave_data wind_data tide_data : json) :
  surf_height "min" wave_data = None \/ surf_height "max" wave_data = None ->
  parse_conditions now wave_data wind_data tide_data = ReturnedNone.
Proof.
  intros Hbad. unfold parse_conditions.
  run_step getitem_caught S1. run_step getitem_caught S2.
  run_step getitem0_caught S3. run_step getitem_caught S4.
  run_step getitem_caught S5. rewrite bind_ret.
  run_step getitem_caught S7. run_step add_caught S8.
  run_step halve_caught S9.
  exfalso.
  destruct (surf_steps_read _ _ _ _ _ _ _ _ _ _ S1 S2 S3 S4 S5 S4 S7 S8 S9)
    as (step & mn & mx & _ & _ & Hmin & Hmax & _).
  destruct Hbad; congruence.
Qed.

(** *** A well-formed wave payload *)

(** Once the wave payload has been read, what is left of the body. *)
Lemma parse_conditions_after_wave (now : string)
    (wave_data wind_data tide_data : json) (min_surf max_surf : Q)
    (swell : list (string * json)) :
  surf_height "min" wave_data = Some min_surf ->
  surf_height "max" wave_data = Some max_surf ->
  first_swell wave_data = Some (JObj swell) ->
  parse_conditions now wave_data wind_data tide_data
  = try_except (
      current_wind <-
        (if truthy wind_data then
           data <- getitem wind_data "data" ;;
           wind <- getitem data "wind" ;;
           getitem0 wind
         else ret (JObj [])) ;;
      wind_speed <- get current_wind "speed" (JNum 0) ;;
      wind_direction <- get current_wind "direction" (JNum 0) ;;
      tide_info <-
        (if truthy tide_data then
           has_data <- contains "data" tide_data ;;
           ret (if has_data : bool then "Available" else "N/A")
         else ret "N/A")%string ;;
      ret {| Conditions.wave_height := (min_surf + max_surf) / 2;
             Conditions.period := default (JNum 0) (assoc "period" swell);
             Conditions.wind_speed := wind_speed;
             Conditions.wind_direction := wind_direction;
             Conditions.tide := tide_info;
             Conditions.timestamp := now |}).
Proof.
  intros Hmin Hmax Hswell.
  unfold surf_height, first_swell, first_time_step in *.
  destruct (field "data" wave_data) as [data|] eqn:H1; [|discriminate].
  simpl in *.
  destruct (field "wave" data) as [wave|] eqn:H2; [|discriminate].
  simpl in *.
  destruct (first_item wave) as [current_wave|] eqn:H3; [|discriminate].
  simpl in *.
  destruct (field "surf" current_wave) as [surf|] eqn:H4; [|discriminate].
  simpl in *.
  destruct (field "min" surf) as [surf_min|] eqn:H5; [|discriminate].
  destruct (field "max" surf) as [surf_max|] eqn:H6; [|discriminate].
  simpl in *.
  destruct current_wave as [| | | | |step]; try discriminate.
  unfold parse_conditions.
  rewrite (proj2 (getitem_inr _ _ _) H1), bind_ret.
  rewrite (proj2 (getitem_inr _ _ _) H2), bind_ret.
  rewrite (getitem0_first _ _ H3), bind_ret.
  rewrite (proj2 (getitem_inr _ _ _) H4), bind_ret.
  rewrite (proj2 (getitem_inr _ _ _) H5), !bind_ret.
  rewrite (proj2 (getitem_inr _ _ _) H6), bind_ret.
  rewrite (add_numbers _ _ _ _ Hmin Hmax), bind_ret.
  change (halve (JNum (min_surf + max_surf)))
    with (@inr exn Q ((min_surf + max_surf) / 2)).
  rewrite bind_ret.
  assert (Hs : getitem0 (default (JArr [JObj []]) (assoc "swells" step))
               = inr (JObj swell)).
  { simpl in Hswell. destruct (assoc "swells" step) as [swells|]; simpl.
    - apply getitem0_first, Hswell.
    - injection Hswell as <-. reflexivity. }
  unfold get at 1. unfold ret at 1. rewrite bind_ret, Hs, bind_ret.
  unfold get at 1. unfold ret at 1. rewrite bind_ret.
  reflexivity.
Qed.

(** With the wind payload absent and the tide payload absent or an
    object, a well-formed wave payload parses. *)
Lemma parse_conditions_wave_only (now : string)
    (wave_data wind_data tide_data : json) (min_surf max_surf : Q)
    (swell : list (string * json)) :
  surf_height "min" wave_data = Some min_surf ->
  surf_height "max" wave_data = Some max_surf ->
  first_swell wave_data = Some (JObj swell) ->
  truthy wind_data = false ->
  truthy tide_data = false \/ (exists items, tide_data = JObj items) ->
  parse_conditions now wave_data wind_data tide_data
  = Returned
      {| Conditions.wave_height := (min_surf + max_surf) / 2;
         Conditions.period := default (JNum 0) (assoc "period" swell);
         Conditions.wind_speed := JNum 0;
         Conditions.wind_direction := JNum 0;
         Conditions.tide :=
           match field "data" tide_data with
           | Some _ => "Available"
           | None => "N/A"
           end%string;
         Conditions.timestamp := now |}.
Proof.
  intros Hmin Hmax Hswell Hwind Htide.
  rewrite (parse_conditions_after_wave _ _ _ _ _ _ _ Hmin Hmax Hswell).
  rewrite Hwind. unfold ret at 1. rewrite bind_ret.
  unfold get at 1. unfold get at 1. unfold ret at 1 2. rewrite !bind_ret.
  simpl assoc. simpl default.
  destruct Htide as [Ht|(items & ->)].
  - rewrite Ht. unfold ret. rewrite bind_ret. simpl.
    destruct tide_data as [| | | | |items]; simpl in *; try reflexivity.
    destruct items; [reflexivity | discriminate].
  - unfold truthy, contains, field, ret.
    destruct items as [|item items]; [reflexivity|]. rewrite bind_ret.
    destruct (assoc "data" (item :: items)); reflexivity.
Qed.

(** A wind payload that is present but from which [data.wind[0]]
    cannot be read fails the parse, whatever the wave payload. *)
Lemma parse_conditions_bad_wind (now : string)
    (wave_data wind_data tide_data : json) (e : exn) :
  wave_well_formed wave_data ->
  truthy wind_data = true ->
  (data <- getitem wind_data "data" ;;
   wind <- getitem data "wind" ;;
   getitem0 wind) = inl e ->
  parse_conditions now wave_data wind_data tide_data = ReturnedNone.
Proof.
  intros (mn & mx & swell & Hmin & Hmax & Hswell) Hwind Hraise.
  rewrite (parse_conditions_after_wave _ _ _ _ _ _ _ Hmin Hmax Hswell).
  rewrite Hwind, Hraise, bind_raise. apply try_except_caught.
  destruct (getitem wind_data "data") as [e1|data] eqn:S1.
  { rewrite bind_raise in Hraise. injection Hraise as <-.
    eapply getitem_caught, S1. }
  rewrite bind_ret in Hraise.
  destruct (getitem data "wind") as [e2|wind] eqn:S2.
  { rewrite bind_raise in Hraise. injection Hraise as <-.
    eapply getitem_caught, S2. }
  rewrite bind_ret in Hraise. eapply getitem0_caught, Hraise.
Qed.

(** C3, as amended.  A record [parse_conditions] returns has
    [wave_height] the mean of the first wave time-step's surf min and
    max, [period] the first swell entry's period field or 0 without
    one, [wind_speed] and [wind_direction] 0 when the wind payload is
    absent, and [tide] "Available" or "N/A".  The parse returns the
    error signal whenever the wave payload is missing or its first
    time-step has no numeric surf min and max.  With the wind and tide
    payloads absent it returns a record exactly when the wave payload
    is well formed, so an absent wind or tide payload never causes
    failure; a wind payload that is present but has no [data.wind[0]]
    to read does make the parse return the error signal. *)
Theorem parse_conditions_contract (now : string)
    (wave_data wind_data tide_data : json) :
  (forall c,
      parse_conditions now wave_data wind_data tide_data = Returned c ->
      (exists min_surf max_surf,
          surf_height "min" wave_data = Some min_surf
          /\ surf_height "max" wave_data = Some max_surf
          /\ Conditions.wave_height c = (min_surf + max_surf) / 2)
      /\ (exists swell,
             first_swell wave_data = Some (JObj swell)
             /\ Conditions.period c
                = default (JNum 0) (assoc "period" swell))
      /\ (truthy wind_data = false ->
          Conditions.wind_speed c = JNum 0
          /\ Conditions.wind_direction c = JNum 0)
      /\ (Conditions.tide c = "Available"%string
          \/ Conditions.tide c = "N/A"%string))
  /\ parse_conditions now JNull wind_data tide_data = ReturnedNone
  /\ (surf_height "min" wave_data = None
      \/ surf_height "max" wave_data = None ->
      parse_conditions now wave_data wind_data tide_data = ReturnedNone)
  /\ ((exists c, parse_conditions now wave_data JNull JNull = Returned c)
      <-> wave_well_formed wave_data)
  /\ (wave_well_formed wave_data ->
      truthy wind_data = false ->
      truthy tide_data = false \/ (exists items, tide_data = JObj items) ->
      exists c,
        parse_conditions now wave_data wind_data tide_data = Returned c
        /\ Conditions.tide c
           = match field "data" tide_data with
             | Some _ => "Available"
             | None => "N/A"
             end%string)
  /\ (wave_well_formed wave_data ->
      truthy wind_data = true ->
      forall e,
        (data <- getitem wind_data "data" ;;
         wind <- getitem data "wind" ;;
         getitem0 wind) = inl e ->
        parse_conditions now wave_data wind_data tide_data = ReturnedNone).
Proof.
  split; [intros c; apply parse_conditions_returned|].
  split; [reflexivity|].
  split; [apply parse_conditions_no_surf|].
  split; [split|split].
  - intros [c Hc].
    apply parse_conditions_returned in Hc
      as ((mn & mx & Hmin & Hmax & _) & (swell & Hswell & _) & _).
    exists mn, mx, swell. auto.
  - intros (mn & mx & swell & Hmin & Hmax & Hswell).
    eexists. apply (parse_conditions_wave_only now wave_data JNull JNull
                      mn mx swell Hmin Hmax Hswell); [reflexivity|].
    left; reflexivity.
  - intros (mn & mx & swell & Hmin & Hmax & Hswell) Hwind Htide.
    eexists. split.
    + apply (parse_conditions_wave_only now wave_data wind_data tide_data
               mn mx swell Hmin Hmax Hswell Hwind Htide).
    + reflexivity.
  - intros Hwave Hwind e He.
    eapply parse_conditions_bad_wind; eassumption.
Qed.

(** C3 as stated fails: this wave payload is well formed and parses
    when the wind payload is absent, yet with a wind payload whose
    time-step list is empty the parse returns the error signal. *)
Lemma empty_wind_fails_parse :
  wave_well_formed sample_wave
  /\ parse_conditions "2024-01-01T00:00:00+00:00" sample_wave JNull JNull
     = Returned
         {| Conditions.wave_height := (2 + 4) / 2;
            Conditions.period := JNum 12;
            Conditions.wind_speed := JNum 0;
            Conditions.wind_direction := JNum 0;
            Conditions.tide := "N/A";
            Conditions.timestamp := "2024-01-01T00:00:00+00:00" |}
  /\ parse_conditions "2024-01-01T00:00:00+00:00" sample_wave empty_wind
                      JNull
     = ReturnedNone.
Proof.
  split; [|split; reflexivity].
  exists 2, 4, [("height", JNum 3); ("period", JNum 12)]%string.
  repeat split; reflexivity.
Qed.

(** The [except] clause does not list [AttributeError]: a first swell
    entry that is not an object makes [.get] raise it, and the call
    ends with that exception instead of [None]. *)
Lemma numeric_swell_escapes :
  parse_conditions "2024-01-01T00:00:00+00:00" numeric_swell_wave JNull JNull
  = Escaped AttributeError.
Proof. reflexivity. Qed.

(** An empty swell list, on the other hand, is caught. *)
Lemma empty_swells_return_none (now : string) :
  parse_conditions now
    (JObj [("data",
            JObj [("wave",
                   JArr [JObj [("surf", JObj [("min", JNum 1);
                                              ("max", JNum 2)]);
                               ("swells", JArr [])]])])]%string)
    JNull JNull
  = ReturnedNone.
Proof. reflexivity. Qed.

(** * Further properties *)

(** ** Spot names and the spot table *)

Lemma normal_char_idem (c : ascii) : normal_char (normal_char c) = normal_char c.
Proof. destruct c as [[] [] [] [] [] [] [] []]; reflexivity. Qed.

Lemma normal_char_lower (c : ascii) :
  normal_char (lower_ascii c) = normal_char c.
Proof. destruct c as [[] [] [] [] [] [] [] []]; reflexivity. Qed.

Lemma normal_char_plain (c : ascii) :
  normal_char c <> " "%char
  /\ normal_char c <> "-"%char
  /\ ~ (65 <= nat_of_ascii (normal_char c) <= 90)%nat.
Proof.
  destruct c as [[] [] [] [] [] [] [] []]; vm_compute;
    (split; [discriminate | split; [discriminate | lia]]).
Qed.

Lemma lower_chars (name : string) : lower name = map_chars lower_ascii name.
Proof. induction name as [|c s IH]; simpl; congruence. Qed.

Lemma normalize_idem (name : string) :
  normalize (normalize name) = normalize name.
Proof.
  rewrite !normalize_chars.
  induction name as [|c s IH]; simpl; [reflexivity|].
  rewrite normal_char_idem, IH. reflexivity.
Qed.

Lemma normalize_lower (name : string) : normalize (lower name) = normalize name.
Proof.
  rewrite !normalize_chars, lower_chars.
  induction name as [|c s IH]; simpl; [reflexivity|].
  rewrite normal_char_lower, IH. reflexivity.
Qed.

Lemma normalize_of_lower_eq (x y : string) :
  lower x = lower y -> normalize x = normalize y.
Proof. unfold normalize. intros ->. reflexivity. Qed.

(** X1.  Normalising a spot name keeps its length, leaves no space,
    hyphen or upper-case ASCII letter, ignores the case of the input and
    changes nothing when applied again. *)
Theorem normalize_canonical (name : string) :
  String.length (normalize name) = String.length name
  /\ (forall c, In c (list_ascii_of_string (normalize name)) ->
        c <> " "%char /\ c <> "-"%char
        /\ ~ (65 <= nat_of_ascii c <= 90)%nat)
  /\ normalize (lower name) = normalize name
  /\ normalize (normalize name) = normalize name.
Proof.
  split; [|split; [|split; [apply normalize_lower | apply normalize_idem]]].
  - rewrite normalize_chars.
    induction name as [|c s IH]; simpl; congruence.
  - rewrite normalize_chars.
    induction name as [|c s IH]; simpl; [tauto|].
    intros c' [<-|Hin]; [apply normal_char_plain | apply IH, Hin].
Qed.

(** Any key under which the table holds a spot normalises to the
    spot's normalised name. *)
Lemma load_surf_spots_key (spots_list : list Spot.t) (key : string)
    (info : Spot.t) :
  load_surf_spots spots_list !! key = Some info ->
  info ∈ spots_list /\ normalize key = normalize (Spot.name info).
Proof.
  intros H. apply load_surf_spots_lookup in H as [Hin [->| ->]].
  - split; [exact Hin | apply normalize_idem].
  - split; [exact Hin | apply normalize_lower].
Qed.

(** What [get_spot_info] returns from the loaded table is a catalog
    spot with the normalised name of the query. *)
Lemma loaded_spot_returned (list_of_set : list string -> list string)
    (spots_list : list Spot.t) (spot_name : string) (info : Spot.t) :
  Lookup.returned
    (get_spot_info list_of_set (load_surf_spots spots_list) spot_name)
  = Some info ->
  info ∈ spots_list /\ normalize (Spot.name info) = normalize spot_name.
Proof.
  unfold get_spot_info.
  destruct (load_surf_spots spots_list !! normalize spot_name)
    as [i1|] eqn:H1.
  - simpl. intros [= <-]. apply load_surf_spots_key in H1 as [Hin Hn].
    rewrite normalize_idem in Hn. auto.
  - destruct (load_surf_spots spots_list !! lower spot_name)
      as [i2|] eqn:H2; simpl; [|discriminate].
    intros [= <-]. apply load_surf_spots_key in H2 as [Hin Hn].
    rewrite normalize_lower in Hn. auto.
Qed.

(** A catalog spot with the normalised name of the query makes the
    lookup hit. *)
Lemma loaded_spot_hit (list_of_set : list string -> list string)
    (spots_list : list Spot.t) (spot_name : string) (spot : Spot.t) :
  spot ∈ spots_list ->
  normalize (Spot.name spot) = normalize spot_name ->
  is_Some (Lookup.returned
             (get_spot_info list_of_set (load_surf_spots spots_list)
                            spot_name)).
Proof.
  intros Hin Hn.
  destruct (load_surf_spots_registered spots_list spot Hin)
    as [[info Hinfo] _].
  rewrite Hn in Hinfo. unfold get_spot_info. rewrite Hinfo. simpl. eauto.
Qed.

(** X2.  Over the table [_load_surf_spots] builds, [get_spot_info]
    finds a spot exactly when some catalog spot has the same normalised
    name as the query, and the spot it returns is such a catalog
    spot. *)
Theorem get_spot_info_hits (list_of_set : list string -> list string)
    (spots_list : list Spot.t) (spot_name : string) :
  let returned :=
    Lookup.returned
      (get_spot_info list_of_set (load_surf_spots spots_list) spot_name) in
  (is_Some returned
   <-> exists spot, spot ∈ spots_list
         /\ normalize (Spot.name spot) = normalize spot_name)
  /\ forall info, returned = Some info ->
       info ∈ spots_list
       /\ normalize (Spot.name info) = normalize spot_name.
Proof.
  cbv zeta. split; [split|].
  - intros [info Hinfo]. exists info.
    eapply loaded_spot_returned, Hinfo.
  - intros (spot & Hin & Hn). eapply loaded_spot_hit; eassumption.
  - intros info. apply loaded_spot_returned.
Qed.

(** Loading more spots leaves a key alone unless one of them registers
    it. *)
Lemma load_more_spots_other (more : list Spot.t) (d : gmap string Spot.t)
    (key : string) :
  Forall (fun spot => normalize (Spot.name spot) <> key
                      /\ lower (Spot.name spot) <> key) more ->
  foldl (fun spots_dict spot =>
           <[lower (Spot.name spot) := spot]>
             (<[normalize (Spot.name spot) := spot]> spots_dict))
        d more !! key
  = d !! key.
Proof.
  revert d. induction more as [|s l IH]; intros d Hall; [reflexivity|].
  apply Forall_cons in Hall as [[H1 H2] Hall]. simpl.
  rewrite IH by exact Hall.
  rewrite lookup_insert_ne by exact H2.
  rewrite lookup_insert_ne by exact H1. reflexivity.
Qed.

(** A spot that no later catalog spot shares its normalised name with
    is what the table holds under that name. *)
Lemma load_surf_spots_own_key (before after : list Spot.t) (spot : Spot.t) :
  Forall (fun later =>
            normalize (Spot.name later) <> normalize (Spot.name spot)) after ->
  load_surf_spots (before ++ spot :: after) !! normalize (Spot.name spot)
  = Some spot.
Proof.
  intros Hafter. unfold load_surf_spots. rewrite foldl_app. simpl.
  rewrite load_more_spots_other.
  - destruct (decide (lower (Spot.name spot) = normalize (Spot.name spot)))
      as [->|Hne].
    + apply lookup_insert_eq.
    + rewrite lookup_insert_ne by exact Hne. apply lookup_insert_eq.
  - eapply Forall_impl; [exact Hafter|]. intros later Hlater. simpl in Hlater.
    split; [exact Hlater|].
    intros Heq. apply Hlater.
    rewrite <- (normalize_lower (Spot.name later)), Heq.
    apply normalize_idem.
Qed.



(** ** The score as a sum of rule contributions *)

(** Split a rule on its tests and compare the scores. *)
Ltac rule_sums :=
  cbv zeta;
  repeat match goal with
         | |- context [if ?c then _ else _] => destruct c
         end;
  unfold award, note, acc0; simpl; lra.

Lemma wave_rule_additive board wave_height (a : acc) :
  fst (wave_rule board wave_height a)
  == fst a + points (wave_rule board wave_height).
Proof.
  unfold points, wave_rule.
  destruct (Board.ideal_wave_range board) as [mn mx]. rule_sums.
Qed.

Lemma period_rule_additive board period (a : acc) :
  fst (period_rule board period a) == fst a + points (period_rule board period).
Proof.
  unfold points, period_rule.
  destruct (Board.ideal_period_range board) as [mn mx]. rule_sums.
Qed.

Lemma wind_rule_additive wind_speed (a : acc) :
  fst (wind_rule wind_speed a) == fst a + points (wind_rule wind_speed).
Proof. unfold points, wind_rule. rule_sums. Qed.

Lemma spot_rule_additive board wave_height period spot_info (a : acc) :
  fst (spot_rule board wave_height period spot_info a)
  == fst a + points (spot_rule board wave_height period spot_info).
Proof.
  unfold points, spot_rule.
  destruct spot_info as [info|]; [|simpl; lra].
  destruct (Spot.characteristics info) as [ch|]; [|simpl; lra].
  unfold skill_level_rule, wave_quality_rule, spot_type_rule. rule_sums.
Qed.

Lemma construction_rule_additive construction construction_type wave_height
    period (a : acc) :
  fst (construction_rule construction construction_type wave_height period a)
  == fst a
     + points (construction_rule construction construction_type
                                 wave_height period).
Proof. unfold points, construction_rule. rule_sums. Qed.

Lemma board_type_rule_additive board wave_height period (a : acc) :
  fst (board_type_rule board wave_height period a)
  == fst a + points (board_type_rule board wave_height period).
Proof. unfold points, board_type_rule. rule_sums. Qed.

(** The score of a board is the sum of what the six rules award. *)
Lemma score_decomposition construction_properties wave_height period
    wind_speed spot_info board :
  fst (score_acc construction_properties wave_height period wind_speed
                 spot_info board)
  == points (wave_rule board wave_height)
     + points (period_rule board period)
     + points (wind_rule wind_speed)
     + points (spot_rule board wave_height period spot_info)
     + points (construction_rule
                 (resolve_construction construction_properties
                                       (construction_type_of board))
                 (construction_type_of board) wave_height period)
     + points (board_type_rule board wave_height period).
Proof.
  rewrite score_acc_unfold.
  rewrite board_type_rule_additive, construction_rule_additive,
    spot_rule_additive, wind_rule_additive, period_rule_additive.
  change (fst (wave_rule board wave_height acc0))
    with (points (wave_rule board wave_height)).
  lra.
Qed.

(** ** How much each rule can award *)

(** Split on every test, keeping what each test says. *)
Ltac split_tests :=
  repeat match goal with
         | |- context [if ?c then _ else _] => destruct c eqn:?
         end;
  tests_to_props.

Lemma wave_points_range board wave_height :
  0 <= points (wave_rule board wave_height) <= 3.
Proof.
  unfold points, wave_rule.
  destruct (Board.ideal_wave_range board) as [mn mx].
  destruct (between mn wave_height mx) eqn:B; [unfold award; simpl; lra|].
  destruct (Qltb wave_height mn) eqn:L; tests_to_props;
    unfold award, acc0, max0; simpl; split_tests; lra.
Qed.

Lemma period_points_range board period :
  0 <= points (period_rule board period) <= 2.
Proof.
  unfold points, period_rule.
  destruct (Board.ideal_period_range board) as [mn mx].
  assert (Hd : 0 <= Qabs (period - (mn + mx) / 2) / 5).
  { apply Qmult_le_0_compat; [apply Qabs_nonneg | compute; discriminate]. }
  revert Hd. generalize (Qabs (period - (mn + mx) / 2) / 5). intros d Hd.
  destruct (between mn period mx); unfold award, acc0, max0; simpl;
    split_tests; lra.
Qed.

Lemma wind_points wind_speed :
  points (wind_rule wind_speed) == wind_bonus wind_speed.
Proof.
  unfold points. rewrite wind_rule_bonus. unfold acc0. simpl. lra.
Qed.

Lemma wind_bonus_range wind_speed : 0 <= wind_bonus wind_speed <= 1.
Proof. unfold wind_bonus. split_tests; lra. Qed.

Lemma wind_bonus_antitone (calmer windier : Q) :
  calmer <= windier -> wind_bonus windier <= wind_bonus calmer.
Proof. intros H. unfold wind_bonus. split_tests; lra. Qed.

Lemma construction_points_range construction construction_type wave_height
    period :
  0 <= points (construction_rule construction construction_type
                                 wave_height period) <= 2.5.
Proof.
  unfold points, construction_rule. cbv zeta.
  split_tests; unfold award, acc0; simpl; lra.
Qed.

(** Name the tests on the board type, and drop the branches in which
    the type would equal two different literals. *)
Ltac split_board_type board :=
  unfold str_in; simpl existsb;
  destruct (String.eqb (Board.type board) "fish/hybrid") eqn:?;
  destruct (String.eqb (Board.type board) "longboard") eqn:?;
  destruct (String.eqb (Board.type board) "performance_shortboard") eqn:?;
  destruct (String.eqb (Board.type board) "gun") eqn:?;
  destruct (String.eqb (Board.type board) "twin_fin") eqn:?;
  repeat match goal with
         | H : String.eqb _ _ = true |- _ => apply String.eqb_eq in H
         end;
  try congruence.

Lemma spot_points_range board wave_height period spot_info :
  0 <= points (spot_rule board wave_height period spot_info) <= 2.
Proof.
  unfold points, spot_rule.
  destruct spot_info as [info|]; [|simpl; lra].
  destruct (Spot.characteristics info) as [ch|]; [|simpl; lra].
  unfold skill_level_rule, wave_quality_rule, spot_type_rule. cbv zeta.
  split_board_type board; simpl; split_tests; unfold award, acc0; simpl; lra.
Qed.

Lemma spot_and_type_points board wave_height period spot_info :
  points (spot_rule board wave_height period spot_info)
  + points (board_type_rule board wave_height period) <= 3.
Proof.
  unfold points, spot_rule, board_type_rule.
  destruct spot_info as [info|];
    [destruct (Spot.characteristics info) as [ch|]|].
  - unfold skill_level_rule, wave_quality_rule, spot_type_rule. cbv zeta.
    split_board_type board; simpl; split_tests; unfold award, acc0; simpl;
      lra.
  - split_tests; unfold award, acc0; simpl; lra.
  - split_tests; unfold award, acc0; simpl; lra.
Qed.

(** X4.  No score exceeds 11.5, and 11.5 is reached: a
    performance shortboard in its ranges at 2 ft and 14 s with light
    wind, an all-round construction and an expert point break. *)
Theorem recommend_board_score_bound :
  (forall construction_properties boards wave_height period wind_speed
          spot_info,
      Forall (fun r => Recommendation.score r <= 11.5)
             (recommend_board construction_properties boards wave_height
                              period wind_speed spot_info))
  /\ exists r,
       recommend_board carbon_table [pro_shortboard] 2 14 5 (Some reef_spot)
       = [r]
       /\ Recommendation.score r == 11.5.
Proof.
  split.
  - intros cp boards wh p ws spot.
    rewrite recommend_board_perm, Forall_fmap.
    apply Forall_forall. intros board _. simpl.
    rewrite score_decomposition, wind_points.
    pose proof (wave_points_range board wh).
    pose proof (period_points_range board p).
    pose proof (wind_bonus_range ws).
    pose proof (spot_and_type_points board wh p spot).
    pose proof (construction_points_range
                  (resolve_construction cp (construction_type_of board))
                  (construction_type_of board) wh p).
    lra.
  - exists (score_board carbon_table 2 14 5 (Some reef_spot) pro_shortboard).
    split; [reflexivity | vm_compute; reflexivity].
Qed.

(** X5.  Spot metadata never lowers a board's score and raises it by at
    most 2. *)
Theorem spot_info_raises_score construction_properties wave_height period
    wind_speed spot_info board :
  let without :=
    Recommendation.score
      (score_board construction_properties wave_height period wind_speed
                   None board) in
  let with_spot :=
    Recommendation.score
      (score_board construction_properties wave_height period wind_speed
                   spot_info board) in
  without <= with_spot /\ with_spot <= without + 2.
Proof.
  cbv zeta. simpl. rewrite !score_decomposition.
  pose proof (spot_points_range board wave_height period spot_info).
  change (points (spot_rule board wave_height period None)) with 0.
  lra.
Qed.

(** X6.  Less wind never lowers a board's score, and wind changes it by
    at most 1. *)
Theorem calmer_wind_raises_score construction_properties wave_height period
    spot_info board (calmer windier : Q) :
  calmer <= windier ->
  let windy :=
    Recommendation.score
      (score_board construction_properties wave_height period windier
                   spot_info board) in
  let calm :=
    Recommendation.score
      (score_board construction_properties wave_height period calmer
                   spot_info board) in
  windy <= calm /\ calm <= windy + 1.
Proof.
  intros Hle. cbv zeta. simpl. rewrite !score_decomposition, !wind_points.
  pose proof (wind_bonus_antitone calmer windier Hle).
  pose proof (wind_bonus_range calmer).
  pose proof (wind_bonus_range windier).
  lra.
Qed.

Lemma calmer_wind_raises_score_witness :
  Recommendation.score
    (score_board default_constructions 3 12 12 None daily_driver)
  <= Recommendation.score
       (score_board default_constructions 3 12 5 None daily_driver)
  /\ Recommendation.score
       (score_board default_constructions 3 12 5 None daily_driver)
     <= Recommendation.score
          (score_board default_constructions 3 12 12 None daily_driver) + 1.
Proof.
  apply (calmer_wind_raises_score default_constructions 3 12 None
           daily_driver 5 12).
  vm_compute. discriminate.
Defined.

(** ** The top recommendation *)

Lemma filter_cons_first {A : Type} (P : A -> bool) (l : list A) (r : A)
    (t : list A) :
  List.filter P l = r :: t ->
  exists pre post,
    l = pre ++ r :: post /\ Forall (fun x => P x = false) pre.
Proof.
  induction l as [|x l IH]; simpl; [discriminate|].
  destruct (P x) eqn:Px.
  - intros [= -> _]. exists [], l. split; [reflexivity | constructor].
  - intros H. destruct (IH H) as (pre & post & -> & Hpre).
    exists (x :: pre), post. split; [reflexivity|].
    constructor; assumption.
Qed.

(** The head of the sorted list has the largest key, and in the input
    it comes before every other entry with that key. *)
Lemma sort_desc_head {A : Type} (key : A -> Q) (l : list A) (r : A)
    (rest : list A) :
  sort_desc key l = r :: rest ->
  Forall (fun x => key x <= key r) l
  /\ exists pre post,
       l = pre ++ r :: post /\ Forall (fun x => key x < key r) pre.
Proof.
  intros Hsort.
  assert (Hmax : Forall (fun x => key x <= key r) l).
  { pose proof (sort_desc_sorted key l) as Hs. rewrite Hsort in Hs.
    apply StronglySorted_inv in Hs as [_ Hrest].
    rewrite <- (sort_desc_perm key l), Hsort.
    constructor; [lra | exact Hrest]. }
  split; [exact Hmax|].
  pose proof (sort_desc_stable key (key r) l) as Hst.
  rewrite Hsort in Hst. unfold with_key in Hst. simpl in Hst.
  assert (Hrr : Qeq_bool (key r) (key r) = true)
    by (apply Qeq_bool_iff; reflexivity).
  rewrite Hrr in Hst. symmetry in Hst.
  apply filter_cons_first in Hst as (pre & post & -> & Hpre).
  exists pre, post. split; [reflexivity|].
  apply Forall_app in Hmax as [Hmax _].
  rewrite Forall_forall in Hmax, Hpre. apply Forall_forall.
  intros x Hx. specialize (Hmax x Hx). specialize (Hpre x Hx).
  destruct (Qlt_le_dec (key x) (key r)) as [Hlt|Hge]; [exact Hlt|].
  assert (Heq : key x == key r) by lra.
  apply Qeq_bool_iff in Heq. congruence.
Qed.

(** X7.  The first recommendation, the one the report names as the
    board to take, has the highest score of the catalog, and among the
    boards with that score it is the first of the catalog.  The list
    is empty only for an empty catalog. *)
Theorem recommend_board_top_pick construction_properties boards wave_height
    period wind_speed spot_info :
  match recommend_board construction_properties boards wave_height period
                        wind_speed spot_info with
  | [] => boards = []
  | top :: _ =>
      Forall
        (fun board =>
           Recommendation.score
             (score_board construction_properties wave_height period
                          wind_speed spot_info board)
           <= Recommendation.score top) boards
      /\ exists before after,
           boards = before ++ Recommendation.board top :: after
           /\ top = score_board construction_properties wave_height period
                                wind_speed spot_info
                                (Recommendation.board top)
           /\ Forall
                (fun board =>
                   Recommendation.score
                     (score_board construction_properties wave_height
                                  period wind_speed spot_info board)
                   < Recommendation.score top) before
  end.
Proof.
  destruct (recommend_board construction_properties boards wave_height
                            period wind_speed spot_info)
    as [|top rest] eqn:Hrec.
  - apply (f_equal length) in Hrec. unfold recommend_board in Hrec.
    rewrite sort_desc_length, length_map in Hrec.
    destruct boards; [reflexivity | discriminate].
  - unfold recommend_board in Hrec.
    apply sort_desc_head in Hrec as (Hmax & pre & post & Hsplit & Hpre).
    split; [rewrite Forall_fmap in Hmax; exact Hmax|].
    apply fmap_app_inv in Hsplit as (before & tail & -> & Htail & ->).
    symmetry in Htail.
    apply fmap_cons_inv in Htail as (board & after & -> & _ & ->).
    exists before, after. split; [reflexivity|]. split; [reflexivity|].
    rewrite Forall_fmap in Hpre. exact Hpre.
Qed.

(** ** A missing constructions file *)

Lemma resolve_default_constructions (construction_type : string) :
  Some (resolve_construction default_constructions construction_type)
  = default_constructions !! "pu"%string.
Proof.
  unfold resolve_construction, default_constructions.
  destruct (decide (construction_type = "pu"%string)) as [->|Hne].
  - rewrite lookup_singleton_eq. reflexivity.
  - rewrite (lookup_singleton_ne _ construction_type) by congruence.
    rewrite lookup_singleton_eq. reflexivity.
Qed.

(** X8.  When the constructions file is missing, every board is scored
    with the built-in "pu" entry, whatever construction it names, while
    the recommendation keeps the board's own key as its construction
    type; the construction bonuses are then 1 for a period above 13 s
    plus 0.5 for a period above 12 s. *)
Theorem missing_constructions_file_scores_as_pu boards wave_height period
    wind_speed spot_info :
  Forall
    (fun r =>
       Some (Recommendation.construction_info r)
       = default_constructions !! "pu"%string
       /\ Recommendation.construction_type r
          = default "pu"%string
                    (Board.construction (Recommendation.board r))
       /\ points (construction_rule (Recommendation.construction_info r)
                                    (Recommendation.construction_type r)
                                    wave_height period)
          == (if Qltb 13 period then 1 else 0)
             + (if Qltb 12 period then 0.5 else 0))
    (recommend_board (load_constructions None) boards wave_height period
                     wind_speed spot_info).
Proof.
  rewrite recommend_board_perm, Forall_fmap.
  apply Forall_forall. intros board _. simpl.
  pose proof (resolve_default_constructions (construction_type_of board))
    as Hres.
  split; [exact Hres|]. split; [reflexivity|].
  assert (Hpu : default_constructions !! "pu"%string
                = Some (resolve_construction default_constructions "pu"))
    by reflexivity.
  rewrite Hpu in Hres. injection Hres as ->.
  unfold points, construction_rule.
  change (nonempty (resolve_construction default_constructions "pu"))
    with true.
  change (attr_is (resolve_construction default_constructions "pu")
                  "small_wave_performance" "excellent") with false.
  change (attr_is (resolve_construction default_constructions "pu")
                  "powerful_wave_performance" "excellent") with true.
  change (attr_in (resolve_construction default_constructions "pu")
                  "paddle_power" ["high"; "excellent"]%string) with false.
  change (attr_in (resolve_construction default_constructions "pu")
                  "flex" ["high"; "medium-high"]%string) with true.
  rewrite !andb_false_r, !andb_true_r. cbv zeta.
  destruct (Qltb 13 period), (Qltb 12 period); unfold award, acc0; simpl;
    lra.
Qed.

(** ** More on conditions parsing *)

Lemma first_wind_step_truthy (wind_data step : json) :
  first_wind_step wind_data = Some step -> truthy wind_data = true.
Proof.
  unfold first_wind_step, field.
  destruct wind_data as [| | | | |items]; try discriminate.
  destruct items; [discriminate | reflexivity].
Qed.

Lemma first_wind_step_read (wind_data step : json) :
  first_wind_step wind_data = Some step ->
  (data <- getitem wind_data "data" ;;
   wind <- getitem data "wind" ;;
   getitem0 wind) = inr step.
Proof.
  unfold first_wind_step. intros H.
  destruct (field "data" wind_data) as [data|] eqn:H1; [|discriminate].
  simpl in H.
  destruct (field "wind" data) as [wind|] eqn:H2; [|discriminate].
  simpl in H.
  rewrite (proj2 (getitem_inr _ _ _) H1), bind_ret.
  rewrite (proj2 (getitem_inr _ _ _) H2), bind_ret.
  apply getitem0_first, H.
Qed.

(** X9.  With a well-formed wave payload and a wind payload whose
    first time-step is an object, the parse succeeds and takes the wind
    speed and direction from that time-step, each 0 when the time-step
    lacks it. *)
Theorem parse_conditions_with_wind (now : string)
    (wave_data wind_data tide_data : json) (min_surf max_surf : Q)
    (swell wind_step : list (string * json)) :
  surf_height "min" wave_data = Some min_surf ->
  surf_height "max" wave_data = Some max_surf ->
  first_swell wave_data = Some (JObj swell) ->
  first_wind_step wind_data = Some (JObj wind_step) ->
  truthy tide_data = false \/ (exists items, tide_data = JObj items) ->
  parse_conditions now wave_data wind_data tide_data
  = Returned
      {| Conditions.wave_height := (min_surf + max_surf) / 2;
         Conditions.period := default (JNum 0) (assoc "period" swell);
         Conditions.wind_speed := default (JNum 0) (assoc "speed" wind_step);
         Conditions.wind_direction :=
           default (JNum 0) (assoc "direction" wind_step);
         Conditions.tide :=
           match field "data" tide_data with
           | Some _ => "Available"
           | None => "N/A"
           end%string;
         Conditions.timestamp := now |}.
Proof.
  intros Hmin Hmax Hswell Hwind Htide.
  rewrite (parse_conditions_after_wave _ _ _ _ _ _ _ Hmin Hmax Hswell).
  rewrite (first_wind_step_truthy _ _ Hwind).
  rewrite (first_wind_step_read _ _ Hwind), bind_ret.
  unfold get at 1. unfold get at 1. unfold ret at 1 2. rewrite !bind_ret.
  destruct Htide as [Ht|(items & ->)].
  - rewrite Ht. unfold ret. rewrite bind_ret. simpl.
    destruct tide_data as [| | | | |items]; simpl in *; try reflexivity.
    destruct items; [reflexivity | discriminate].
  - unfold truthy, contains, field, ret.
    destruct items as [|item items]; [reflexivity|]. rewrite bind_ret.
    destruct (assoc "data" (item :: items)); reflexivity.
Qed.

Lemma parse_conditions_with_wind_witness :
  parse_conditions "2024-01-01T00:00:00+00:00" sample_wave sample_wind JNull
  = Returned
      {| Conditions.wave_height := (2 + 4) / 2;
         Conditions.period := JNum 12;
         Conditions.wind_speed := JNum 7;
         Conditions.wind_direction := JNum 270;
         Conditions.tide := "N/A";
         Conditions.timestamp := "2024-01-01T00:00:00+00:00" |}.
Proof.
  apply (parse_conditions_with_wind "2024-01-01T00:00:00+00:00" sample_wave
           sample_wind JNull 2 4
           [("height", JNum 3); ("period", JNum 12)]%string
           [("speed", JNum 7); ("direction", JNum 270)]%string);
    try reflexivity.
  left; reflexivity.
Defined.

(** *** Which exceptions get past the [except] clause *)

Lemma try_except_escaped (body : py Conditions.t) (e : exn) :
  try_except body = Escaped e <-> body = inl AttributeError /\ e = AttributeError.
Proof.
  destruct body as [[]|c]; simpl; split;
    try discriminate; try (intros [H _]; discriminate).
  - intros [= <-]. auto.
  - intros [_ ->]. reflexivity.
Qed.

Lemma contains_caught (k : string) (x : json) (e : exn) :
  contains k x = inl e -> caught e.
Proof.
  unfold caught, contains, ret, raise. destruct x; simpl; congruence.
Qed.

Lemma wind_steps_caught (wind_data : json) (e : exn) :
  (data <- getitem wind_data "data" ;;
   wind <- getitem data "wind" ;;
   getitem0 wind) = inl e ->
  caught e.
Proof.
  intros H.
  destruct (getitem wind_data "data") as [e1|data] eqn:S1.
  { rewrite bind_raise in H. injection H as <-. eapply getitem_caught, S1. }
  rewrite bind_ret in H.
  destruct (getitem data "wind") as [e2|wind] eqn:S2.
  { rewrite bind_raise in H. injection H as <-. eapply getitem_caught, S2. }
  rewrite bind_ret in H. eapply getitem0_caught, H.
Qed.

Lemma wind_steps_entry (wind_data v : json) :
  truthy wind_data = true ->
  (data <- getitem wind_data "data" ;;
   wind <- getitem data "wind" ;;
   getitem0 wind) = inr v ->
  first_wind_entry wind_data = Some v.
Proof.
  intros Ht H. invert_binds H.
  apply getitem_inr in E, E0.
  unfold first_wind_entry, item0. rewrite Ht, E. simpl. rewrite E0. simpl.
  rewrite H. reflexivity.
Qed.

(** Take the next step of a body that ends in [AttributeError]: the
    step did not raise, since what it raises is caught. *)
Ltac pass_step H lem v E :=
  match type of H with
  | bind ?c _ = inl AttributeError =>
      destruct c as [?|v] eqn:E;
      [ rewrite bind_raise in H; injection H as ->; apply lem in E;
        exfalso; exact (E eq_refl)
      | rewrite bind_ret in H ]
  end.

(** X10.  The only exception [parse_conditions] lets through is
    [AttributeError], and only when the first swell entry or the first
    wind time-step exists but is not an object. *)
Theorem parse_conditions_escape (now : string)
    (wave_data wind_data tide_data : json) (e : exn) :
  parse_conditions now wave_data wind_data tide_data = Escaped e ->
  e = AttributeError
  /\ ((exists v, first_swell_entry wave_data = Some v /\ ~ is_object v)
      \/ (exists v, first_wind_entry wind_data = Some v /\ ~ is_object v)).
Proof.
  unfold parse_conditions. intros H.
  apply try_except_escaped in H as [H ->]. split; [reflexivity|].
  pass_step H getitem_caught data S1. pass_step H getitem_caught wave S2.
  pass_step H getitem0_caught current_wave S3.
  pass_step H getitem_caught surf S4.
  pass_step H getitem_caught surf_min S5. rewrite bind_ret in H.
  pass_step H getitem_caught surf_max S7. pass_step H add_caught surf_sum S8.
  pass_step H halve_caught wave_height S9.
  destruct (surf_steps_read _ _ _ _ _ _ _ _ _ _ S1 S2 S3 S4 S5 S4 S7 S8 S9)
    as (step & mn & mx & -> & Hstep & _).
  unfold get at 1 in H. unfold ret at 1 in H. rewrite bind_ret in H.
  pass_step H getitem0_caught swell S11.
  assert (Hentry : first_swell_entry wave_data = Some swell).
  { unfold first_swell_entry, item0. rewrite Hstep, S11. reflexivity. }
  destruct (get swell "period" (JNum 0)) as [e1|period] eqn:G1.
  { left. exists swell. split; [exact Hentry|].
    intros [items ->]. discriminate. }
  rewrite bind_ret in H.
  match type of H with
  | bind ?c _ = _ => destruct c as [e2|current_wind] eqn:EW
  end.
  { rewrite bind_raise in H. injection H as ->.
    destruct (truthy wind_data); [|discriminate].
    apply wind_steps_caught in EW. exfalso. exact (EW eq_refl). }
  rewrite bind_ret in H.
  destruct (get current_wind "speed" (JNum 0)) as [e3|speed] eqn:G2.
  { right. exists current_wind.
    destruct (truthy wind_data) eqn:Tw.
    - split; [apply wind_steps_entry; assumption|].
      intros [items ->]. discriminate.
    - injection EW as <-. discriminate. }
  rewrite bind_ret in H.
  apply get_inr in G2 as (items & -> & _).
  unfold get at 1 in H. unfold ret at 1 in H. rewrite bind_ret in H.
  match type of H with
  | bind ?c _ = _ => destruct c as [e4|tide_info] eqn:ET
  end.
  - rewrite bind_raise in H. injection H as ->.
    destruct (truthy tide_data); [|discriminate].
    destruct (contains "data" tide_data) as [e5|has_data] eqn:C.
    + rewrite bind_raise in ET. injection ET as ->.
      apply contains_caught in C. exfalso. exact (C eq_refl).
    + discriminate.
  - discriminate.
Qed.

Lemma parse_conditions_escape_witness :
  AttributeError = AttributeError
  /\ ((exists v, first_swell_entry numeric_swell_wave = Some v
                 /\ ~ is_object v)
      \/ (exists v, first_wind_entry JNull = Some v /\ ~ is_object v)).
Proof.
  apply (parse_conditions_escape "2024-01-01T00:00:00+00:00"
           numeric_swell_wave JNull JNull AttributeError).
  reflexivity.
Defined.

(** ** One request *)

Section RunFacts.
Variable list_of_set : list string -> list string.
Variables fetch_forecast fetch_wind fetch_tides : string -> json.
Variable now : string.

Lemma surf_height_truthy (bound : string) (wave_data : json) (q : Q) :
  surf_height bound wave_data = Some q -> truthy wave_data = true.
Proof.
  unfold surf_height, first_time_step, field.
  destruct wave_data as [| | | | |items]; try discriminate.
  destruct items; [discriminate | reflexivity].
Qed.

(** X11.  Over the loaded spot table, [run] answers with its
    unknown-spot message exactly when no catalog spot has the
    normalised name of the query. *)
Theorem run_unknown_spot (spots_list : list Spot.t)
    (construction_properties : gmap string Construction)
    (boards : list Board.t) (spot_name : string) :
  run list_of_set fetch_forecast fetch_wind fetch_tides now
      (load_surf_spots spots_list) construction_properties boards spot_name
  = RunMessage ("❌ Unknown spot '" ++ spot_name
                  ++ "'. Check available spots with --list-spots")%string
  <-> ~ exists spot, spot ∈ spots_list
          /\ normalize (Spot.name spot) = normalize spot_name.
Proof.
  unfold run.
  destruct (Lookup.returned
              (get_spot_info list_of_set (load_surf_spots spots_list)
                             spot_name)) as [info|] eqn:Hret.
  - split.
    + intros Hrun. exfalso. cbv zeta in Hrun.
      destruct (negb (truthy (fetch_forecast (Spot.surfline_id info))));
        [discriminate|].
      destruct (parse_conditions now _ _ _); try discriminate.
      destruct (recommend_board_on _ _ _ _ _ _); discriminate.
    + intros Hno. exfalso. apply Hno.
      destruct (loaded_spot_returned _ _ _ _ Hret) as [Hin Hn]. eauto.
  - split; [|reflexivity].
    intros _ (spot & Hin & Hn).
    destruct (loaded_spot_hit list_of_set _ _ _ Hin Hn) as [info Hinfo].
    congruence.
Qed.

(** X12.  For a known spot, when the surf heights cannot be read from
    the wave payload, [run] makes no recommendation: it answers that
    fetching failed when the payload is empty or missing, and that
    parsing failed otherwise, whatever the wind and tide payloads. *)
Theorem run_without_surf_heights (spots : gmap string Spot.t)
    (construction_properties : gmap string Construction)
    (boards : list Board.t) (spot_name : string) (info : Spot.t) :
  Lookup.returned (get_spot_info list_of_set spots spot_name) = Some info ->
  surf_height "min" (fetch_forecast (Spot.surfline_id info)) = None
  \/ surf_height "max" (fetch_forecast (Spot.surfline_id info)) = None ->
  run list_of_set fetch_forecast fetch_wind fetch_tides now
      spots construction_properties boards spot_name
  = RunMessage
      (if truthy (fetch_forecast (Spot.surfline_id info))
       then "❌ Failed to parse conditions"
       else "❌ Failed to fetch wave data")%string.
Proof.
  intros Hinfo Hbad. unfold run. rewrite Hinfo. cbv zeta.
  destruct (truthy (fetch_forecast (Spot.surfline_id info))); simpl;
    [|reflexivity].
  rewrite parse_conditions_no_surf by exact Hbad. reflexivity.
Qed.

(** X13.  For a known spot with a well-formed wave payload whose period
    is a number, failed wind and tide requests do not stop [run]: it
    reports the recommendations of [recommend_board] for the mean surf
    height, that period, wind speed 0 and the spot's metadata. *)
Theorem run_without_wind_and_tide (spots : gmap string Spot.t)
    (construction_properties : gmap string Construction)
    (boards : list Board.t) (spot_name : string) (info : Spot.t)
    (min_surf max_surf period : Q) (swell : list (string * json)) :
  Lookup.returned (get_spot_info list_of_set spots spot_name) = Some info ->
  surf_height "min" (fetch_forecast (Spot.surfline_id info))
  = Some min_surf ->
  surf_height "max" (fetch_forecast (Spot.surfline_id info))
  = Some max_surf ->
  first_swell (fetch_forecast (Spot.surfline_id info)) = Some (JObj swell) ->
  as_number (default (JNum 0) (assoc "period" swell)) = Some period ->
  fetch_wind (Spot.surfline_id info) = JNull ->
  fetch_tides (Spot.surfline_id info) = JNull ->
  run list_of_set fetch_forecast fetch_wind fetch_tides now
      spots construction_properties boards spot_name
  = RunReport spot_name info
      {| Conditions.wave_height := (min_surf + max_surf) / 2;
         Conditions.period := default (JNum 0) (assoc "period" swell);
         Conditions.wind_speed := JNum 0;
         Conditions.wind_direction := JNum 0;
         Conditions.tide := "N/A";
         Conditions.timestamp := now |}
      (recommend_board construction_properties boards
                       ((min_surf + max_surf) / 2) period 0 (Some info)).
Proof.
  intros Hinfo Hmin Hmax Hswell Hperiod Hwind Htide.
  unfold run. rewrite Hinfo. cbv zeta.
  rewrite (surf_height_truthy _ _ _ Hmin), Hwind, Htide. simpl negb.
  rewrite (parse_conditions_wave_only now _ JNull JNull min_surf max_surf
             swell Hmin Hmax Hswell eq_refl (or_introl eq_refl)).
  cbn [Conditions.wave_height Conditions.period Conditions.wind_speed].
  unfold recommend_board_on. rewrite Hperiod.
  destruct boards; reflexivity.
Qed.

(** X14.  A report is only made for a known spot whose wave payload is
    well formed, and its recommendations are those of
    [recommend_board] for the parsed conditions and that spot. *)
Theorem run_report_origin (spots : gmap string Spot.t)
    (construction_properties : gmap string Construction)
    (boards : list Board.t) (spot_name reported : string) (info : Spot.t)
    (conditions : Conditions.t) (recommendations : list Recommendation.t) :
  run list_of_set fetch_forecast fetch_wind fetch_tides now
      spots construction_properties boards spot_name
  = RunReport reported info conditions recommendations ->
  reported = spot_name
  /\ Lookup.returned (get_spot_info list_of_set spots spot_name) = Some info
  /\ wave_well_formed (fetch_forecast (Spot.surfline_id info))
  /\ parse_conditions now (fetch_forecast (Spot.surfline_id info))
                      (fetch_wind (Spot.surfline_id info))
                      (fetch_tides (Spot.surfline_id info))
     = Returned conditions
  /\ ((boards = [] /\ recommendations = [])
      \/ exists period wind_speed,
           as_number (Conditions.period conditions) = Some period
           /\ as_number (Conditions.wind_speed conditions) = Some wind_speed
           /\ recommendations
              = recommend_board construction_properties boards
                                (Conditions.wave_height conditions)
                                period wind_speed (Some info)).
Proof.
  unfold run.
  destruct (Lookup.returned (get_spot_info list_of_set spots spot_name))
    as [info'|]; [|discriminate]. cbv zeta.
  destruct (negb (truthy (fetch_forecast (Spot.surfline_id info'))));
    [discriminate|].
  destruct (parse_conditions now _ _ _) as [c| |e] eqn:Hparse;
    try discriminate.
  destruct (recommend_board_on _ _ _ _ _ _) as [e|recs] eqn:Hrec;
    [discriminate|].
  intros [= <- <- <- <-].
  split; [reflexivity|]. split; [reflexivity|].
  split.
  { apply parse_conditions_returned in Hparse
      as ((mn & mx & Hmin & Hmax & _) & (swell & Hswell & _) & _).
    exists mn, mx, swell. auto. }
  split; [exact Hparse|].
  unfold recommend_board_on in Hrec.
  destruct boards as [|board boards'].
  - left. injection Hrec as <-. auto.
  - right.
    destruct (as_number (Conditions.period c)) as [p|]; [|discriminate].
    destruct (as_number (Conditions.wind_speed c)) as [ws|];
      [|discriminate].
    injection Hrec as <-. eauto.
Qed.
End RunFacts.

(** The scenario of a failed wave request, one of failed wind and tide
    requests, and a successful one, for the two-spot catalog. *)
Lemma run_without_surf_heights_witness :
  run remove_dups (fun _ => JNull) (fun _ => sample_wind) (fun _ => JNull)
      "2024-01-01T00:00:00+00:00"
      (load_surf_spots [linda_mar; ocean_beach]) default_constructions
      [daily_driver; small_wave_fish] "linda mar"
  = RunMessage "❌ Failed to fetch wave data".
Proof.
  apply (run_without_surf_heights remove_dups (fun _ => JNull)
           (fun _ => sample_wind) (fun _ => JNull)
           "2024-01-01T00:00:00+00:00"
           (load_surf_spots [linda_mar; ocean_beach]) default_constructions
           [daily_driver; small_wave_fish] "linda mar" linda_mar).
  - reflexivity.
  - left; reflexivity.
Defined.

Lemma run_without_wind_and_tide_witness :
  run remove_dups (fun _ => sample_wave) (fun _ => JNull) (fun _ => JNull)
      "2024-01-01T00:00:00+00:00"
      (load_surf_spots [linda_mar; ocean_beach]) default_constructions
      [daily_driver; small_wave_fish] "linda mar"
  = RunReport "linda mar" linda_mar
      {| Conditions.wave_height := (2 + 4) / 2;
         Conditions.period := JNum 12;
         Conditions.wind_speed := JNum 0;
         Conditions.wind_direction := JNum 0;
         Conditions.tide := "N/A";
         Conditions.timestamp := "2024-01-01T00:00:00+00:00" |}
      (recommend_board default_constructions [daily_driver; small_wave_fish]
                       ((2 + 4) / 2) 12 0 (Some linda_mar)).
Proof.
  apply (run_without_wind_and_tide remove_dups (fun _ => sample_wave)
           (fun _ => JNull) (fun _ => JNull) "2024-01-01T00:00:00+00:00"
           (load_surf_spots [linda_mar; ocean_beach]) default_constructions
           [daily_driver; small_wave_fish] "linda mar" linda_mar 2 4 12
           [("height", JNum 3); ("period", JNum 12)]%string);
    reflexivity.
Defined.

Lemma run_report_origin_witness :
  "linda mar"%string = "linda mar"%string
  /\ Lookup.returned
       (get_spot_info remove_dups (load_surf_spots [linda_mar; ocean_beach])
                      "linda mar")
     = Some linda_mar
  /\ wave_well_formed sample_wave.
Proof.
  destruct (run_report_origin remove_dups (fun _ => sample_wave)
              (fun _ => sample_wind) (fun _ => JNull)
              "2024-01-01T00:00:00+00:00"
              (load_surf_spots [linda_mar; ocean_beach])
              default_constructions [daily_driver; small_wave_fish]
              "linda mar" "linda mar" linda_mar
              {| Conditions.wave_height := (2 + 4) / 2;
                 Conditions.period := JNum 12;
                 Conditions.wind_speed := JNum 7;
                 Conditions.wind_direction := JNum 270;
                 Conditions.tide := "N/A";
                 Conditions.timestamp := "2024-01-01T00:00:00+00:00" |}
              (recommend_board default_constructions
                               [daily_driver; small_wave_fish]
                               ((2 + 4) / 2) 12 7 (Some linda_mar))
              eq_refl)
    as (H1 & H2 & H3 & _).
  split; [exact H1|]. split; [exact H2 | exact H3].
Defined.

(** ** What a miss lists *)

Lemma distinct_names_own_key (spots_list : list Spot.t) (spot : Spot.t) :
  NoDup (map (fun s => normalize (Spot.name s)) spots_list) ->
  spot ∈ spots_list ->
  load_surf_spots spots_list !! normalize (Spot.name spot) = Some spot.
Proof.
  intros Hnd Hin.
  apply list_elem_of_split in Hin as (before & after & ->).
  apply load_surf_spots_own_key.
  rewrite map_app in Hnd. apply NoDup_app in Hnd as (_ & _ & Hnd).
  simpl in Hnd. apply NoDup_cons in Hnd as [Hnotin _].
  apply Forall_forall. intros later Hlater Heq. apply Hnotin.
  rewrite <- Heq.
  apply (list_elem_of_fmap_2 (fun s => normalize (Spot.name s))), Hlater.
Qed.

(** X15.  For a catalog of at most 10 spots with pairwise different
    normalised names, the message of a miss lists the name of every
    catalog spot, each once. *)
Theorem get_spot_info_lists_catalog (list_of_set : list string -> list string)
    (spots_list : list Spot.t) (spot_name : string) :
  (forall xs, NoDup (list_of_set xs)) ->
  (forall xs x, x ∈ list_of_set xs <-> x ∈ xs) ->
  NoDup (map (fun s => normalize (Spot.name s)) spots_list) ->
  (length spots_list <= 10)%nat ->
  Lookup.returned
    (get_spot_info list_of_set (load_surf_spots spots_list) spot_name)
  = None ->
  Permutation
    (Lookup.listed
       (get_spot_info list_of_set (load_surf_spots spots_list) spot_name))
    (map Spot.name spots_list).
Proof.
  intros Hnodup Hsame Hnames Hlen. unfold get_spot_info.
  destruct (load_surf_spots spots_list !! normalize spot_name);
    [discriminate|].
  destruct (load_surf_spots spots_list !! lower spot_name);
    [discriminate|].
  simpl. intros _.
  set (names := map Spot.name
                    (map snd (map_to_list (load_surf_spots spots_list)))).
  assert (Hperm : Permutation (list_of_set names) (map Spot.name spots_list)).
  { apply NoDup_Permutation.
    - apply Hnodup.
    - apply (NoDup_fmap_1 normalize). rewrite <- list_fmap_compose.
      exact Hnames.
    - intros n. rewrite Hsame. subst names. split.
      + intros Hn. apply list_elem_of_fmap in Hn as (info & -> & Hinfo).
        apply list_elem_of_fmap in Hinfo as ([key info'] & -> & Hin).
        apply elem_of_map_to_list, load_surf_spots_lookup in Hin as [Hin _].
        apply list_elem_of_fmap_2, Hin.
      + intros Hn. apply list_elem_of_fmap in Hn as (spot & -> & Hin).
        apply list_elem_of_fmap_2.
        apply (list_elem_of_fmap_2 snd _ (normalize (Spot.name spot), spot)).
        apply elem_of_map_to_list, distinct_names_own_key; assumption. }
  rewrite take_ge; [exact Hperm|].
  rewrite (Permutation_length Hperm), length_map. exact Hlen.
Qed.

Lemma get_spot_info_lists_catalog_witness :
  Permutation
    (Lookup.listed
       (get_spot_info remove_dups (load_surf_spots [linda_mar; ocean_beach])
                      "nowhere_beach"))
    (map Spot.name [linda_mar; ocean_beach]).
Proof.
  apply (get_spot_info_lists_catalog remove_dups [linda_mar; ocean_beach]
           "nowhere_beach" NoDup_remove_dups elem_of_remove_dups).
  - vm_compute. apply NoDup_cons. split; [|apply NoDup_singleton].
    rewrite list_elem_of_singleton. discriminate.
  - simpl. lia.
  - reflexivity.
Defined.

(** ** Wind and the ranking *)

Section SortByKeyMore.
Context {A B : Type}.

Lemma insert_desc_map (key : A -> Q) (f : B -> A) (x : B) (l : list B) :
  insert_desc key (f x) (map f l)
  = map f (insert_desc (fun b => key (f b)) x l).
Proof.
  induction l as [|y l IH]; simpl; [reflexivity|].
  destruct (Qle_bool (key (f y)) (key (f x))); simpl; [reflexivity|].
  rewrite IH. reflexivity.
Qed.

Lemma sort_desc_map (key : A -> Q) (f : B -> A) (l : list B) :
  sort_desc key (map f l) = map f (sort_desc (fun b => key (f b)) l).
Proof.
  induction l as [|x l IH]; simpl; [reflexivity|].
  rewrite IH. apply insert_desc_map.
Qed.

(** Two keys that compare every pair alike sort alike. *)
Lemma sort_desc_ext (key1 key2 : B -> Q) (l : list B) :
  (forall x y, Qle_bool (key1 y) (key1 x) = Qle_bool (key2 y) (key2 x)) ->
  sort_desc key1 l = sort_desc key2 l.
Proof.
  intros Hext. induction l as [|x l IH]; simpl; [reflexivity|].
  rewrite IH. generalize (sort_desc key2 l). intros k.
  induction k as [|y k IHk]; simpl; [reflexivity|].
  rewrite Hext, IHk. reflexivity.
Qed.
End SortByKeyMore.

(** X16.  The wind speed shifts every score by the same amount, so it
    never changes the order in which the boards are recommended. *)
Theorem wind_keeps_ranking construction_properties boards wave_height period
    spot_info (wind_speed wind_speed' : Q) :
  map Recommendation.board
      (recommend_board construction_properties boards wave_height period
                       wind_speed spot_info)
  = map Recommendation.board
        (recommend_board construction_properties boards wave_height period
                         wind_speed' spot_info).
Proof.
  unfold recommend_board. rewrite !sort_desc_map, !map_map. simpl.
  rewrite !map_id. apply sort_desc_ext. intros x y. simpl.
  apply eq_true_iff_eq. rewrite !Qle_bool_iff, !score_decomposition.
  split; lra.
Qed.
